(** * AT91 power management (arch/arm/mach-at91/pm.c)

    A shallow embedding of the suspend/resume control path of the AT91
    power-management code: the suspend state machine
    ([at91_pm_valid_state], [at91_pm_begin], [at91_pm_enter],
    [at91_pm_end]), the clock validator ([at91_pm_verify_clocks]), the
    memory-controller discovery ([at91_dt_ramc]) and the SRAM relocation
    ([at91_pm_sram_init], [at91_pm_init]).

    C integers are modelled as [Z]; 32-bit wrap-around is written out with
    [u32].  Pointers are addresses in [Z], the null pointer is [0].  Calls
    into the rest of the kernel are recorded as events in a trace. *)

From Stdlib Require Import ZArith List String Bool Lia.
Import ListNotations.

Local Open Scope Z_scope.

(** ** Machine integers *)

Definition u32 (x : Z) : Z := x mod 2 ^ 32.

(** ** Constants and macros of headers that this file includes

    [pm.c] uses constants and macros declared in [linux/suspend.h],
    [linux/clk/at91_pmc.h], ["pm.h"], [mach/hardware.h] and
    [asm/fncpy.h].  They are taken as parameters: every definition below is
    stated over an arbitrary [Headers]. *)

Class Headers : Type := {
  (* linux/suspend.h: suspend_state_t values *)
  PM_SUSPEND_ON : Z;
  PM_SUSPEND_STANDBY : Z;
  PM_SUSPEND_MEM : Z;
  (* linux/clk/at91_pmc.h: register offsets and bit masks *)
  AT91_PMC_SCSR : Z;
  AT91_PMC_PCK0 : Z;
  AT91_PMC_PCKR : Z -> Z;
  AT91_PMC_CSS : Z;
  AT91_PMC_CSS_SLOW : Z;
  AT91_CKGR_UCKR : Z;
  AT91_PMC_UPLLEN : Z;
  AT91_PMC_SR : Z;
  AT91_PMC_LOCKB : Z;
  AT91RM9200_PMC_UHP : Z;
  AT91RM9200_PMC_UDP : Z;
  AT91SAM926x_PMC_UHP : Z;
  AT91SAM926x_PMC_UDP : Z;
  (* pm.h: layout of the mode word and memory-controller kinds *)
  AT91_PM_MODE : Z -> Z;
  AT91_PM_SLOW_CLOCK : Z;
  AT91_PM_DDRC_PID : Z -> Z;
  AT91_PM_IS_SAMA5D4 : Z -> Z;
  AT91_PM_SAMA5D4_BIT : Z;
  AT91_MEMCTRL_MC : Z;
  AT91_MEMCTRL_SDRAMC : Z;
  AT91_MEMCTRL_DDRSDR : Z;
  AT91RM9200_SDRAMC_LPR : Z;
  SAMA5D3_ID_MPDDRC : Z;
  SAMA5D4_ID_MPDDRC : Z;
  (* pm.h: addresses of the standby routines *)
  at91rm9200_standby : Z;
  at91sam9_sdram_standby : Z;
  at91_ddr_standby : Z;
  (* pm_suspend.S: the relocatable routine and its size *)
  at91_pm_suspend_in_sram : Z;
  at91_pm_suspend_in_sram_sz : Z;
  (* asm/fncpy.h: fncpy(dest, src, size) yields the callable address *)
  fncpy : Z -> Z -> Z -> Z
}.

(** ** Description data (device tree) and the on-chip SRAM allocator *)

Record gen_pool : Type := {
  gen_pool_alloc : Z -> Z;          (* size -> virtual address, 0 on failure *)
  gen_pool_virt_to_phys : Z -> Z
}.

Record platform_device : Type := {
  dev_get_gen_pool : option gen_pool  (* None is a NULL pool *)
}.

Record device_node : Type := {
  compatible : list string;
  of_iomap0 : Z;                                     (* of_iomap(np, 0) *)
  of_find_device_by_node : option platform_device    (* None is NULL *)
}.

Record board : Type := {
  at91_pmc_base : Z;
  pmc_regs : Z -> Z;                     (* clock-controller registers *)
  device_tree : list device_node;        (* all nodes, in tree order *)
  arm_ioremap_exec : Z -> Z -> Z         (* phys, size -> address or 0 *)
}.

(** ** Events: calls that leave this file *)

Inductive loglevel : Type := KERN_ERR | KERN_WARNING | KERN_INFO | KERN_DEBUG.

Inductive fmtarg : Type :=
| ArgInt (z : Z)
| ArgStr (s : string).

Inductive event : Type :=
| E_pinctrl_gpio_suspend
| E_pinctrl_gpio_resume
| E_flush_cache_all
| E_outer_disable
| E_outer_resume
| E_cpu_do_idle
| E_suspend_sram_fn (fn pmc ramc0 ramc1 mode : Z)
| E_pmc_read (field : Z)
| E_ramc_write (id field value : Z)
| E_printk (lvl : loglevel) (fmt : string) (args : list fmtarg)
| E_platform_device_register (platform_data : Z)
| E_suspend_set_ops.

(** ** Program state: the file's static variables *)

Record pm_data : Type := {
  uhp_udp_mask : Z;
  memctrl : Z;
  ddrc_pid : Z;
  is_sama5d4 : bool
}.

Record machine : Type := {
  hw : board;
  at91_pm_data : pm_data;
  at91_ramc_base : list Z;              (* void __iomem *at91_ramc_base[2] *)
  target_state : Z;
  at91_suspend_sram_fn : Z;
  cpuidle_platform_data : Z;            (* at91_cpuidle_device.dev.platform_data *)
  trace : list event                    (* oldest event first *)
}.

Definition set_pm_data (d : pm_data) (m : machine) : machine :=
  {| hw := hw m; at91_pm_data := d; at91_ramc_base := at91_ramc_base m;
     target_state := target_state m;
     at91_suspend_sram_fn := at91_suspend_sram_fn m;
     cpuidle_platform_data := cpuidle_platform_data m; trace := trace m |}.

Definition set_ramc_base (l : list Z) (m : machine) : machine :=
  {| hw := hw m; at91_pm_data := at91_pm_data m; at91_ramc_base := l;
     target_state := target_state m;
     at91_suspend_sram_fn := at91_suspend_sram_fn m;
     cpuidle_platform_data := cpuidle_platform_data m; trace := trace m |}.

Definition set_target_state (s : Z) (m : machine) : machine :=
  {| hw := hw m; at91_pm_data := at91_pm_data m;
     at91_ramc_base := at91_ramc_base m; target_state := s;
     at91_suspend_sram_fn := at91_suspend_sram_fn m;
     cpuidle_platform_data := cpuidle_platform_data m; trace := trace m |}.

Definition set_suspend_sram_fn (f : Z) (m : machine) : machine :=
  {| hw := hw m; at91_pm_data := at91_pm_data m;
     at91_ramc_base := at91_ramc_base m; target_state := target_state m;
     at91_suspend_sram_fn := f;
     cpuidle_platform_data := cpuidle_platform_data m; trace := trace m |}.

Definition set_cpuidle_platform_data (p : Z) (m : machine) : machine :=
  {| hw := hw m; at91_pm_data := at91_pm_data m;
     at91_ramc_base := at91_ramc_base m; target_state := target_state m;
     at91_suspend_sram_fn := at91_suspend_sram_fn m;
     cpuidle_platform_data := p; trace := trace m |}.

Definition log_event (e : event) (m : machine) : machine :=
  {| hw := hw m; at91_pm_data := at91_pm_data m;
     at91_ramc_base := at91_ramc_base m; target_state := target_state m;
     at91_suspend_sram_fn := at91_suspend_sram_fn m;
     cpuidle_platform_data := cpuidle_platform_data m;
     trace := trace m ++ [e] |}.

(** ** A state monad with fatal stops

    A computation either returns a value and a new state, or stops:
    [panic] stops the system; a call through a null function pointer and
    a store outside an array are undefined in C, and the model ends the
    run there and says which of the two it was. *)

Inductive halt : Type :=
| Panic (fmt : string) (args : list fmtarg)
| NullCall
| OutOfBounds (idx : Z).

Inductive outcome (A : Type) : Type :=
| Done (a : A) (m : machine)
| Halted (h : halt) (m : machine).
Arguments Done {A} a m.
Arguments Halted {A} h m.

Definition M (A : Type) : Type := machine -> outcome A.

Definition ret {A} (a : A) : M A := fun m => Done a m.

Definition bind {A B} (c : M A) (k : A -> M B) : M B :=
  fun m => match c m with
           | Done a m' => k a m'
           | Halted h m' => Halted h m'
           end.

Definition get {A} (f : machine -> A) : M A := fun m => Done (f m) m.
Definition modify (f : machine -> machine) : M unit := fun m => Done tt (f m).
Definition emit (e : event) : M unit := modify (log_event e).
Definition stop {A} (h : halt) : M A := fun m => Halted h m.

Declare Scope pm_scope.
Delimit Scope pm_scope with pm.
Notation "x <- c ;; k" := (bind c (fun x => k))
  (at level 61, c at next level, right associativity) : pm_scope.
Notation "c ;; k" := (bind c (fun _ => k))
  (at level 61, right associativity) : pm_scope.
Local Open Scope pm_scope.

Definition final_state {A} (o : outcome A) : machine :=
  match o with Done _ m => m | Halted _ m => m end.

Definition returned {A} (o : outcome A) : option A :=
  match o with Done a _ => Some a | Halted _ _ => None end.

Definition stopped {A} (o : outcome A) : option halt :=
  match o with Done _ _ => None | Halted h _ => Some h end.

(** The events a computation added to the trace of [m]. *)
Definition events_since (m m' : machine) : list event :=
  skipn (List.length (trace m)) (trace m').

Definition count_event (p : event -> bool) (l : list event) : nat :=
  List.length (filter p l).

Definition is_gpio_suspend (e : event) : bool :=
  match e with E_pinctrl_gpio_suspend => true | _ => false end.
Definition is_gpio_resume (e : event) : bool :=
  match e with E_pinctrl_gpio_resume => true | _ => false end.
Definition is_suspend_sram_fn (e : event) : bool :=
  match e with E_suspend_sram_fn _ _ _ _ _ => true | _ => false end.
Definition is_flush_cache_all (e : event) : bool :=
  match e with E_flush_cache_all => true | _ => false end.
Definition is_outer_disable (e : event) : bool :=
  match e with E_outer_disable => true | _ => false end.
Definition is_suspend_set_ops (e : event) : bool :=
  match e with E_suspend_set_ops => true | _ => false end.
Definition is_printk (e : event) : bool :=
  match e with E_printk _ _ _ => true | _ => false end.

(** Kernel services used by the file. *)

Definition pr_err (fmt : string) (args : list fmtarg) : M unit :=
  emit (E_printk KERN_ERR fmt args).
Definition pr_warn (fmt : string) (args : list fmtarg) : M unit :=
  emit (E_printk KERN_WARNING fmt args).
Definition pr_info (fmt : string) (args : list fmtarg) : M unit :=
  emit (E_printk KERN_INFO fmt args).
(** [pr_debug] is traced like the other levels, whether or not the build
    compiles it in. *)
Definition pr_debug (fmt : string) (args : list fmtarg) : M unit :=
  emit (E_printk KERN_DEBUG fmt args).
Definition panic {A} (fmt : string) (args : list fmtarg) : M A :=
  stop (Panic fmt args).

(** [at91_pmc_read(field)]: a 32-bit read of a clock-controller register. *)
Definition at91_pmc_read (field : Z) : M Z :=
  emit (E_pmc_read field) ;;
  v <- get (fun m => pmc_regs (hw m) field) ;;
  ret (u32 v).

(** ** The program *)

Section Program.
Context {hdr : Headers}.

(** *** Suspend state machine: validate and begin *)

Definition at91_pm_valid_state (state : Z) : Z :=
  if state =? PM_SUSPEND_ON then 1
  else if state =? PM_SUSPEND_STANDBY then 1
  else if state =? PM_SUSPEND_MEM then 1
  else 0.

(** Called after processes are frozen, but before we shutdown devices. *)
Definition at91_pm_begin (state : Z) : M Z :=
  modify (set_target_state state) ;;
  ret 0.

(** *** Clock validator *)

(** The body of [for (i = 0; i < 4; i++)], over the remaining values of
    [i].  The result is [false] when the body took [return 0], and [true]
    when the loop ran to its end. *)
Fixpoint verify_pck (scsr : Z) (pcks : list Z) : M bool :=
  match pcks with
  | [] => ret true
  | i :: rest =>
      if Z.land scsr (Z.shiftl AT91_PMC_PCK0 i) =? 0 then
        verify_pck scsr rest                              (* continue *)
      else
        v <- at91_pmc_read (AT91_PMC_PCKR i) ;;
        let css := Z.land v AT91_PMC_CSS in
        if negb (css =? AT91_PMC_CSS_SLOW) then
          pr_err "AT91: PM - Suspend-to-RAM with PCK%d src %d"
                 [ArgInt i; ArgInt css] ;;
          ret false
        else verify_pck scsr rest
  end.

(** Verify that all the clocks are correct before entering slow-clock
    mode. *)
Definition at91_pm_verify_clocks : M Z :=
  scsr <- at91_pmc_read AT91_PMC_SCSR ;;
  d <- get at91_pm_data ;;
  (* USB must not be using PLLB *)
  if negb (Z.land scsr (uhp_udp_mask d) =? 0) then
    pr_err "AT91: PM - Suspend-to-RAM with USB still active" [] ;;
    ret 0
  else
    (* PCK0..PCK3 must be disabled, or configured to use clk32k *)
    completed <- verify_pck scsr [0; 1; 2; 3] ;;
    if negb completed then ret 0
    else
      (* Drivers should have previously suspended USB PLL *)
      uckr <- at91_pmc_read AT91_CKGR_UCKR ;;
      if negb (Z.land uckr AT91_PMC_UPLLEN =? 0) then
        pr_err "AT91: PM - Suspend-to-RAM with USB PLL running" [] ;;
        ret 0
      else
        (* Drivers should have previously suspended PLL B *)
        sr <- at91_pmc_read AT91_PMC_SR ;;
        if negb (Z.land sr AT91_PMC_LOCKB =? 0) then
          pr_err "AT91: PM - Suspend-to-RAM with PLL B running" [] ;;
          ret 0
        else ret 1.

(** Call this from platform driver suspend() to see how deeply to
    suspend. *)
Definition at91_suspend_entering_slow_clock : M Z :=
  t <- get target_state ;;
  ret (if t =? PM_SUSPEND_MEM then 1 else 0).

(** *** Entering a low-power state *)

(** The value of [pm_data] built at the start of [at91_pm_suspend]; it is
    an [unsigned int], so each [|=] is taken modulo 2^32. *)
Definition pm_mode_word (d : pm_data) (state : Z) : Z :=
  let pm_data := u32 (memctrl d) in
  let pm_data :=
    u32 (Z.lor pm_data
               (if state =? PM_SUSPEND_MEM
                then AT91_PM_MODE AT91_PM_SLOW_CLOCK else 0)) in
  let pm_data := u32 (Z.lor pm_data (AT91_PM_DDRC_PID (ddrc_pid d))) in
  let pm_data :=
    u32 (Z.lor pm_data
               (if is_sama5d4 d
                then AT91_PM_IS_SAMA5D4 AT91_PM_SAMA5D4_BIT else 0)) in
  pm_data.

(** A call through the pointer [at91_suspend_sram_fn]; a null pointer
    cannot be called. *)
Definition call_suspend_sram_fn (pmc ramc0 ramc1 mode : Z) : M unit :=
  fn <- get at91_suspend_sram_fn ;;
  if fn =? 0 then stop NullCall
  else emit (E_suspend_sram_fn fn pmc ramc0 ramc1 mode).

Definition at91_pm_suspend (state : Z) : M unit :=
  d <- get at91_pm_data ;;
  let pm_data := pm_mode_word d state in
  emit E_flush_cache_all ;;
  emit E_outer_disable ;;
  pmc <- get (fun m => at91_pmc_base (hw m)) ;;
  ramc0 <- get (fun m => nth 0 (at91_ramc_base m) 0) ;;
  ramc1 <- get (fun m => nth 1 (at91_ramc_base m) 0) ;;
  call_suspend_sram_fn pmc ramc0 ramc1 pm_data ;;
  emit E_outer_resume.

(** [goto error] and [break] both continue at the label [error], which
    every path through the [switch] reaches. *)
Definition at91_pm_enter (state : Z) : M Z :=
  emit E_pinctrl_gpio_suspend ;;
  (if state =? PM_SUSPEND_MEM then
     (* Ensure that clocks are in a valid state. *)
     ok <- at91_pm_verify_clocks ;;
     if ok =? 0 then ret tt                               (* goto error *)
     else at91_pm_suspend state
   else if state =? PM_SUSPEND_STANDBY then
     at91_pm_suspend state
   else if state =? PM_SUSPEND_ON then
     emit E_cpu_do_idle
   else
     pr_debug "AT91: PM - bogus suspend state %d" [ArgInt state]) ;;
  (* error: *)
  modify (set_target_state PM_SUSPEND_ON) ;;
  emit E_pinctrl_gpio_resume ;;
  ret 0.

(** Called right prior to thawing processes. *)
Definition at91_pm_end : M unit :=
  modify (set_target_state PM_SUSPEND_ON).

(** *** Memory-controller discovery *)

Definition at91_pm_set_standby (at91_standby : Z) : M unit :=
  if negb (at91_standby =? 0) then
    modify (set_cpuidle_platform_data at91_standby)
  else ret tt.

Record of_device_id : Type := {
  id_compatible : string;
  id_data : Z
}.

Definition ramc_ids : list of_device_id :=
  [ {| id_compatible := "atmel,at91rm9200-sdramc"; id_data := at91rm9200_standby |};
    {| id_compatible := "atmel,at91sam9260-sdramc"; id_data := at91sam9_sdram_standby |};
    {| id_compatible := "atmel,at91sam9g45-ddramc"; id_data := at91_ddr_standby |};
    {| id_compatible := "atmel,sama5d3-ddramc"; id_data := at91_ddr_standby |} ].

(** Modelled from the spec: the device-tree matching behind
    [for_each_matching_node_and_match] (drivers/of, not part of this
    file).  A node matches when its declared hardware identity is one of
    the table's; its entry is the one named by the earliest of its
    compatible strings that the table lists (the first such entry). *)
Fixpoint of_match_node (matches : list of_device_id) (compat : list string)
  : option of_device_id :=
  match compat with
  | [] => None
  | c :: rest =>
      match find (fun id => String.eqb (id_compatible id) c) matches with
      | Some id => Some id
      | None => of_match_node matches rest
      end
  end.

(** Modelled from the spec: the nodes that
    [for_each_matching_node_and_match] visits, in tree order, each with
    its table entry. *)
Fixpoint matching_nodes (matches : list of_device_id) (dt : list device_node)
  : list (device_node * of_device_id) :=
  match dt with
  | [] => []
  | np :: rest =>
      match of_match_node matches (compatible np) with
      | Some id => (np, id) :: matching_nodes matches rest
      | None => matching_nodes matches rest
      end
  end.

(** [at91_ramc_base[idx] = v]: the array has two elements.  The source
    has no bound check; a store at any other index is undefined in C, and
    the model marks it by ending the run with [OutOfBounds]. *)
Definition store_ramc_base (idx v : Z) : M unit :=
  if (0 <=? idx) && (idx <? 2) then
    modify (fun m => set_ramc_base
       (if idx =? 0 then [v; nth 1 (at91_ramc_base m) 0]
        else [nth 0 (at91_ramc_base m) 0; v]) m)
  else stop (OutOfBounds idx).

(** The body of the discovery loop over the matching nodes, with the
    locals [idx] and [standby]. *)
Fixpoint dt_ramc_loop (nodes : list (device_node * of_device_id))
  (idx standby : Z) : M (Z * Z) :=
  match nodes with
  | [] => ret (idx, standby)
  | (np, of_id) :: rest =>
      store_ramc_base idx (of_iomap0 np) ;;
      b <- get (fun m => nth (Z.to_nat idx) (at91_ramc_base m) 0) ;;
      if b =? 0 then
        panic "unable to map ramc[%d] cpu registers" [ArgInt idx]
      else
        let standby := if standby =? 0 then id_data of_id else standby in
        dt_ramc_loop rest (idx + 1) standby
  end.

Definition at91_dt_ramc : M unit :=
  dt <- get (fun m => device_tree (hw m)) ;;
  r <- dt_ramc_loop (matching_nodes ramc_ids dt) 0 0 ;;
  let '(idx, standby) := r in
  if idx =? 0 then
    panic "unable to find compatible ram controller node in dtb" []
  else if standby =? 0 then
    pr_warn "ramc no standby function available" [] ;;
    ret tt
  else at91_pm_set_standby standby.

(** *** SRAM relocation *)

(** The loop [for_each_compatible_node(node, NULL, "mmio-sram")] over the
    nodes of the tree: [pdev] is assigned in every iteration over a
    compatible node, and the loop breaks at the first non-null one. *)
Fixpoint find_sram_pdev (nodes : list device_node)
  (pdev : option platform_device) : option platform_device :=
  match nodes with
  | [] => pdev
  | node :: rest =>
      if existsb (String.eqb "mmio-sram") (compatible node) then
        match of_find_device_by_node node with
        | Some p => Some p                                  (* break *)
        | None => find_sram_pdev rest None
        end
      else find_sram_pdev rest pdev
  end.

Definition at91_pm_sram_init : M unit :=
  dt <- get (fun m => device_tree (hw m)) ;;
  match find_sram_pdev dt None with
  | None =>
      pr_warn "%s: failed to find sram device!" [ArgStr "at91_pm_sram_init"]
  | Some pdev =>
      match dev_get_gen_pool pdev with
      | None =>
          pr_warn "%s: sram pool unavailable!" [ArgStr "at91_pm_sram_init"]
      | Some sram_pool =>
          let sram_base := gen_pool_alloc sram_pool at91_pm_suspend_in_sram_sz in
          if sram_base =? 0 then
            pr_warn "%s: unable to alloc ocram!" [ArgStr "at91_pm_sram_init"]
          else
            let sram_pbase := gen_pool_virt_to_phys sram_pool sram_base in
            remap <- get (fun m => arm_ioremap_exec (hw m)) ;;
            modify (set_suspend_sram_fn
                      (remap sram_pbase at91_pm_suspend_in_sram_sz)) ;;
            fn <- get at91_suspend_sram_fn ;;
            if fn =? 0 then
              pr_warn "SRAM: Could not map" []
            else
              (* Copy the pm suspend handler to SRAM *)
              modify (set_suspend_sram_fn
                        (fncpy fn at91_pm_suspend_in_sram
                               at91_pm_suspend_in_sram_sz))
      end
  end.

Definition at91_pm_init : M unit :=
  at91_pm_sram_init ;;
  pdata <- get cpuidle_platform_data ;;
  (if negb (pdata =? 0) then emit (E_platform_device_register pdata)
   else ret tt) ;;
  fn <- get at91_suspend_sram_fn ;;
  if negb (fn =? 0) then emit E_suspend_set_ops
  else pr_info "AT91: PM not supported, due to no SRAM allocated" [].

(** *** Per-variant initializers *)

Definition set_uhp_udp_mask (v : Z) (d : pm_data) : pm_data :=
  {| uhp_udp_mask := v; memctrl := memctrl d; ddrc_pid := ddrc_pid d;
     is_sama5d4 := is_sama5d4 d |}.
Definition set_memctrl (v : Z) (d : pm_data) : pm_data :=
  {| uhp_udp_mask := uhp_udp_mask d; memctrl := v; ddrc_pid := ddrc_pid d;
     is_sama5d4 := is_sama5d4 d |}.
Definition set_ddrc_pid (v : Z) (d : pm_data) : pm_data :=
  {| uhp_udp_mask := uhp_udp_mask d; memctrl := memctrl d; ddrc_pid := v;
     is_sama5d4 := is_sama5d4 d |}.
Definition set_is_sama5d4 (v : bool) (d : pm_data) : pm_data :=
  {| uhp_udp_mask := uhp_udp_mask d; memctrl := memctrl d;
     ddrc_pid := ddrc_pid d; is_sama5d4 := v |}.

Definition update_pm_data (f : pm_data -> pm_data) : M unit :=
  modify (fun m => set_pm_data (f (at91_pm_data m)) m).

Definition at91rm9200_pm_init : M unit :=
  at91_dt_ramc ;;
  (* AT91RM9200 SDRAM low-power mode cannot be used with self-refresh. *)
  emit (E_ramc_write 0 AT91RM9200_SDRAMC_LPR 0) ;;
  update_pm_data (set_uhp_udp_mask (Z.lor AT91RM9200_PMC_UHP AT91RM9200_PMC_UDP)) ;;
  update_pm_data (set_memctrl AT91_MEMCTRL_MC) ;;
  at91_pm_init.

Definition at91sam9260_pm_init : M unit :=
  at91_dt_ramc ;;
  update_pm_data (set_memctrl AT91_MEMCTRL_SDRAMC) ;;
  update_pm_data (set_uhp_udp_mask (Z.lor AT91SAM926x_PMC_UHP AT91SAM926x_PMC_UDP)) ;;
  at91_pm_init.

Definition at91sam9g45_pm_init : M unit :=
  at91_dt_ramc ;;
  update_pm_data (set_uhp_udp_mask AT91SAM926x_PMC_UHP) ;;
  update_pm_data (set_memctrl AT91_MEMCTRL_DDRSDR) ;;
  at91_pm_init.

Definition at91sam9x5_pm_init : M unit :=
  at91_dt_ramc ;;
  update_pm_data (set_uhp_udp_mask (Z.lor AT91SAM926x_PMC_UHP AT91SAM926x_PMC_UDP)) ;;
  update_pm_data (set_memctrl AT91_MEMCTRL_DDRSDR) ;;
  at91_pm_init.

Definition sam5d3_pm_init : M unit :=
  at91_dt_ramc ;;
  update_pm_data (set_uhp_udp_mask (Z.lor AT91SAM926x_PMC_UHP AT91SAM926x_PMC_UDP)) ;;
  update_pm_data (set_memctrl AT91_MEMCTRL_DDRSDR) ;;
  update_pm_data (set_ddrc_pid SAMA5D3_ID_MPDDRC) ;;
  at91_pm_init.

Definition sam5d4_pm_init : M unit :=
  at91_dt_ramc ;;
  update_pm_data (set_uhp_udp_mask (Z.lor AT91SAM926x_PMC_UHP AT91SAM926x_PMC_UDP)) ;;
  update_pm_data (set_memctrl AT91_MEMCTRL_DDRSDR) ;;
  update_pm_data (set_ddrc_pid SAMA5D4_ID_MPDDRC) ;;
  update_pm_data (set_is_sama5d4 true) ;;
  at91_pm_init.

End Program.

(** ** Properties of states and traces used in the statements *)

(** [m] with the events [evs] added to its trace. *)
Definition append_events (evs : list event) (m : machine) : machine :=
  {| hw := hw m; at91_pm_data := at91_pm_data m;
     at91_ramc_base := at91_ramc_base m; target_state := target_state m;
     at91_suspend_sram_fn := at91_suspend_sram_fn m;
     cpuidle_platform_data := cpuidle_platform_data m;
     trace := trace m ++ evs |}.

(** [c], run on [m] after any further events [pre], returns [r], adds
    exactly the events [evs] and changes nothing else. *)
Definition delivers {A} (c : M A) (m : machine) (r : A) (evs : list event)
  : Prop :=
  forall pre, c (append_events pre m) = Done r (append_events (pre ++ evs) m).

(** The events of the clock validator: register reads and error logs. *)
Definition is_clock_event (e : event) : bool :=
  match e with
  | E_pmc_read _ => true
  | E_printk KERN_ERR _ _ => true
  | _ => false
  end.

Section Properties.
Context {hdr : Headers}.

(** The four preconditions of deep suspend, as the specification lists
    them, read off the clock-controller registers of [m]. *)

Definition pmc_reg (m : machine) (field : Z) : Z := u32 (pmc_regs (hw m) field).

(** 1. all USB host/device clock-enable bits of the profile's mask are
       clear in the status register. *)
Definition usb_clocks_off (m : machine) : bool :=
  Z.land (pmc_reg m AT91_PMC_SCSR) (uhp_udp_mask (at91_pm_data m)) =? 0.

(** 2. a programmable clock output is disabled, or sourced from the slow
       clock. *)
Definition pck_enabled (m : machine) (i : Z) : bool :=
  negb (Z.land (pmc_reg m AT91_PMC_SCSR) (Z.shiftl AT91_PMC_PCK0 i) =? 0).

Definition pck_source (m : machine) (i : Z) : Z :=
  Z.land (pmc_reg m (AT91_PMC_PCKR i)) AT91_PMC_CSS.

Definition pck_ok (m : machine) (i : Z) : bool :=
  negb (pck_enabled m i) || (pck_source m i =? AT91_PMC_CSS_SLOW).

(** 3. the USB PLL enable bit is clear. *)
Definition usb_pll_off (m : machine) : bool :=
  Z.land (pmc_reg m AT91_CKGR_UCKR) AT91_PMC_UPLLEN =? 0.

(** 4. PLL B's lock-status bit is clear. *)
Definition pllb_unlocked (m : machine) : bool :=
  Z.land (pmc_reg m AT91_PMC_SR) AT91_PMC_LOCKB =? 0.

Definition clocks_ok (m : machine) : Prop :=
  usb_clocks_off m = true /\
  (forall i, 0 <= i < 4 -> pck_ok m i = true) /\
  usb_pll_off m = true /\
  pllb_unlocked m = true.

(** The first violated precondition, taking them in the order 1 to 4 and
    the clock outputs in the order 0 to 3. *)
Inductive violation : Type :=
| UsbStillActive
| PckSource (i css : Z)
| UsbPllRunning
| PllBRunning.

Definition first_violation (m : machine) : option violation :=
  if negb (usb_clocks_off m) then Some UsbStillActive
  else match find (fun i => negb (pck_ok m i)) [0; 1; 2; 3] with
       | Some i => Some (PckSource i (pck_source m i))
       | None =>
           if negb (usb_pll_off m) then Some UsbPllRunning
           else if negb (pllb_unlocked m) then Some PllBRunning
           else None
       end.

Definition violation_log (v : option violation) : list event :=
  match v with
  | None => []
  | Some UsbStillActive =>
      [E_printk KERN_ERR "AT91: PM - Suspend-to-RAM with USB still active" []]
  | Some (PckSource i css) =>
      [E_printk KERN_ERR "AT91: PM - Suspend-to-RAM with PCK%d src %d"
                [ArgInt i; ArgInt css]]
  | Some UsbPllRunning =>
      [E_printk KERN_ERR "AT91: PM - Suspend-to-RAM with USB PLL running" []]
  | Some PllBRunning =>
      [E_printk KERN_ERR "AT91: PM - Suspend-to-RAM with PLL B running" []]
  end.

(** The source registers looked at for the clock outputs [pcks]: the one
    of every enabled output, up to the first that is not on the slow
    clock. *)
Fixpoint pck_registers (m : machine) (pcks : list Z) : list Z :=
  match pcks with
  | [] => []
  | i :: rest =>
      if pck_enabled m i then
        AT91_PMC_PCKR i ::
          (if pck_source m i =? AT91_PMC_CSS_SLOW then pck_registers m rest
           else [])
      else pck_registers m rest
  end.

(** The registers a check in order, stopping at the first violation,
    looks at. *)
Definition registers_inspected (m : machine) : list Z :=
  AT91_PMC_SCSR ::
  match first_violation m with
  | Some UsbStillActive => []
  | Some (PckSource _ _) => pck_registers m [0; 1; 2; 3]
  | Some UsbPllRunning => pck_registers m [0; 1; 2; 3] ++ [AT91_CKGR_UCKR]
  | Some PllBRunning | None =>
      pck_registers m [0; 1; 2; 3] ++ [AT91_CKGR_UCKR; AT91_PMC_SR]
  end.

(** The deep-clock-gating flag of the mode word, as a 32-bit mask. *)
Definition deep_flag : Z := u32 (AT91_PM_MODE AT91_PM_SLOW_CLOCK).

(** All bits of [mask] are set in [w]. *)
Definition has_bits (w mask : Z) : Prop := Z.land w mask = mask.

(** The events of one call of [at91_pm_suspend]. *)
Definition suspend_events (m : machine) (state : Z) : list event :=
  [ E_flush_cache_all; E_outer_disable;
    E_suspend_sram_fn (at91_suspend_sram_fn m) (at91_pmc_base (hw m))
      (nth 0 (at91_ramc_base m) 0) (nth 1 (at91_ramc_base m) 0)
      (pm_mode_word (at91_pm_data m) state);
    E_outer_resume ].

(** The events of [at91_pm_enter] between the GPIO suspend and the
    cleanup. *)
Definition transition_events (m : machine) (state : Z) : list event :=
  if state =? PM_SUSPEND_MEM then
    map E_pmc_read (registers_inspected m) ++
    match first_violation m with
    | Some v => violation_log (Some v)
    | None => suspend_events m state
    end
  else if state =? PM_SUSPEND_STANDBY then suspend_events m state
  else if state =? PM_SUSPEND_ON then [E_cpu_do_idle]
  else [E_printk KERN_DEBUG "AT91: PM - bogus suspend state %d" [ArgInt state]].

(** Calls made between [begin] and the end of a transition that leave
    [target_state] alone. *)
Inductive pm_query : Type :=
| QueryValid (state : Z)
| QuerySlowClock
| QueryVerifyClocks.

Definition run_query (q : pm_query) : M Z :=
  match q with
  | QueryValid state => ret (at91_pm_valid_state state)
  | QuerySlowClock => at91_suspend_entering_slow_clock
  | QueryVerifyClocks => at91_pm_verify_clocks
  end.

Fixpoint run_queries (qs : list pm_query) : M unit :=
  match qs with
  | [] => ret tt
  | q :: rest => run_query q ;; run_queries rest
  end.

(** A step of the SRAM relocation fails on [m]: no SRAM device, no backing
    pool, no block from the pool, or no executable mapping. *)
Inductive sram_failure (m : machine) : Prop :=
| no_sram_device :
    find_sram_pdev (device_tree (hw m)) None = None -> sram_failure m
| no_sram_pool pdev :
    find_sram_pdev (device_tree (hw m)) None = Some pdev ->
    dev_get_gen_pool pdev = None -> sram_failure m
| alloc_fails pdev pool :
    find_sram_pdev (device_tree (hw m)) None = Some pdev ->
    dev_get_gen_pool pdev = Some pool ->
    gen_pool_alloc pool at91_pm_suspend_in_sram_sz = 0 -> sram_failure m
| mapping_fails pdev pool :
    find_sram_pdev (device_tree (hw m)) None = Some pdev ->
    dev_get_gen_pool pdev = Some pool ->
    gen_pool_alloc pool at91_pm_suspend_in_sram_sz <> 0 ->
    arm_ioremap_exec (hw m)
      (gen_pool_virt_to_phys pool
         (gen_pool_alloc pool at91_pm_suspend_in_sram_sz))
      at91_pm_suspend_in_sram_sz = 0 -> sram_failure m.

(** The memory-controller nodes of the description data of [m]. *)
Definition ramc_nodes (m : machine) : list (device_node * of_device_id) :=
  matching_nodes ramc_ids (device_tree (hw m)).

Definition maps_ok (n : device_node * of_device_id) : Prop :=
  of_iomap0 (fst n) <> 0.

Definition no_standby (n : device_node * of_device_id) : Prop :=
  id_data (snd n) = 0.

(** The two fatal stops of the discovery. *)
Definition map_panic (idx : Z) : halt :=
  Panic "unable to map ramc[%d] cpu registers" [ArgInt idx].

Definition no_node_panic : halt :=
  Panic "unable to find compatible ram controller node in dtb" [].

End Properties.

(** ** Further notions for the rest of the file *)

Definition is_outer_resume (e : event) : bool :=
  match e with E_outer_resume => true | _ => false end.
Definition is_pmc_read (e : event) : bool :=
  match e with E_pmc_read _ => true | _ => false end.
Definition is_platform_device_register (e : event) : bool :=
  match e with E_platform_device_register _ => true | _ => false end.
Definition is_ramc_write (e : event) : bool :=
  match e with E_ramc_write _ _ _ => true | _ => false end.
Definition is_debug_printk (e : event) : bool :=
  match e with E_printk KERN_DEBUG _ _ => true | _ => false end.

(** The cache operations and the call of the relocated routine. *)
Definition is_suspend_event (e : event) : bool :=
  match e with
  | E_flush_cache_all | E_outer_disable | E_outer_resume => true
  | E_suspend_sram_fn _ _ _ _ _ => true
  | _ => false
  end.

(** [m'] has the statics that are written at initialization only (the
    profile, the base addresses, the routine pointer, the platform data)
    and the board of [m], and a trace that extends the one of [m]. *)
Definition keeps_statics (m m' : machine) : Prop :=
  hw m' = hw m /\
  at91_pm_data m' = at91_pm_data m /\
  at91_ramc_base m' = at91_ramc_base m /\
  at91_suspend_sram_fn m' = at91_suspend_sram_fn m /\
  cpuidle_platform_data m' = cpuidle_platform_data m /\
  exists evs, trace m' = trace m ++ evs.

(** A node that [for_each_compatible_node(node, NULL, "mmio-sram")]
    visits. *)
Definition is_sram_node (node : device_node) : bool :=
  existsb (String.eqb "mmio-sram") (compatible node).

(** The standby routine of the first node whose table entry declares
    one, null when none does. *)
Fixpoint first_standby (nodes : list (device_node * of_device_id)) : Z :=
  match nodes with
  | [] => 0
  | n :: rest =>
      if id_data (snd n) =? 0 then first_standby rest else id_data (snd n)
  end.

Section Lifecycle.
Context {hdr : Headers}.

(** The calls that the suspend framework and the drivers make into this
    file once it is initialized. *)
Inductive pm_call : Type :=
| CallValid (state : Z)
| CallBegin (state : Z)
| CallEnter (state : Z)
| CallEnd
| CallSlowClock.

Definition run_call (c : pm_call) : M Z :=
  match c with
  | CallValid state => ret (at91_pm_valid_state state)
  | CallBegin state => at91_pm_begin state
  | CallEnter state => at91_pm_enter state
  | CallEnd => at91_pm_end ;; ret 0
  | CallSlowClock => at91_suspend_entering_slow_clock
  end.

Fixpoint run_calls (cs : list pm_call) : M unit :=
  match cs with
  | [] => ret tt
  | c :: rest => run_call c ;; run_calls rest
  end.

Definition is_enter (c : pm_call) : bool :=
  match c with CallEnter _ => true | _ => false end.

(** The target state after the calls [cs], from the target state [t]:
    [begin] records its argument, [enter] and [end] reset it, the other
    calls leave it. *)
Fixpoint target_after (cs : list pm_call) (t : Z) : Z :=
  match cs with
  | [] => t
  | CallBegin state :: rest => target_after rest state
  | (CallEnter _ | CallEnd) :: rest => target_after rest PM_SUSPEND_ON
  | (CallValid _ | CallSlowClock) :: rest => target_after rest t
  end.

(** [at91_pm_enter] reaches [at91_pm_suspend] for this state on [m]. *)
Definition reaches_suspend (m : machine) (state : Z) : Prop :=
  (state = PM_SUSPEND_MEM /\ clocks_ok m) \/ state = PM_SUSPEND_STANDBY.

(** The pointer that a relocation into the pool [pool] yields. *)
Definition relocated_fn (m : machine) (pool : gen_pool) : Z :=
  fncpy
    (arm_ioremap_exec (hw m)
       (gen_pool_virt_to_phys pool
          (gen_pool_alloc pool at91_pm_suspend_in_sram_sz))
       at91_pm_suspend_in_sram_sz)
    at91_pm_suspend_in_sram at91_pm_suspend_in_sram_sz.

(** The SoC families with an initializer in this file. *)
Inductive soc : Type :=
| AT91RM9200 | AT91SAM9260 | AT91SAM9G45 | AT91SAM9X5 | SAMA5D3 | SAMA5D4.

Definition soc_pm_init (v : soc) : M unit :=
  match v with
  | AT91RM9200 => at91rm9200_pm_init
  | AT91SAM9260 => at91sam9260_pm_init
  | AT91SAM9G45 => at91sam9g45_pm_init
  | AT91SAM9X5 => at91sam9x5_pm_init
  | SAMA5D3 => sam5d3_pm_init
  | SAMA5D4 => sam5d4_pm_init
  end.

(** The profile each initializer leaves, from the profile [d] it finds:
    the fields it does not assign keep their value. *)
Definition soc_profile (v : soc) (d : pm_data) : pm_data :=
  match v with
  | AT91RM9200 =>
      {| uhp_udp_mask := Z.lor AT91RM9200_PMC_UHP AT91RM9200_PMC_UDP;
         memctrl := AT91_MEMCTRL_MC;
         ddrc_pid := ddrc_pid d; is_sama5d4 := is_sama5d4 d |}
  | AT91SAM9260 =>
      {| uhp_udp_mask := Z.lor AT91SAM926x_PMC_UHP AT91SAM926x_PMC_UDP;
         memctrl := AT91_MEMCTRL_SDRAMC;
         ddrc_pid := ddrc_pid d; is_sama5d4 := is_sama5d4 d |}
  | AT91SAM9G45 =>
      {| uhp_udp_mask := AT91SAM926x_PMC_UHP;
         memctrl := AT91_MEMCTRL_DDRSDR;
         ddrc_pid := ddrc_pid d; is_sama5d4 := is_sama5d4 d |}
  | AT91SAM9X5 =>
      {| uhp_udp_mask := Z.lor AT91SAM926x_PMC_UHP AT91SAM926x_PMC_UDP;
         memctrl := AT91_MEMCTRL_DDRSDR;
         ddrc_pid := ddrc_pid d; is_sama5d4 := is_sama5d4 d |}
  | SAMA5D3 =>
      {| uhp_udp_mask := Z.lor AT91SAM926x_PMC_UHP AT91SAM926x_PMC_UDP;
         memctrl := AT91_MEMCTRL_DDRSDR;
         ddrc_pid := SAMA5D3_ID_MPDDRC; is_sama5d4 := is_sama5d4 d |}
  | SAMA5D4 =>
      {| uhp_udp_mask := Z.lor AT91SAM926x_PMC_UHP AT91SAM926x_PMC_UDP;
         memctrl := AT91_MEMCTRL_DDRSDR;
         ddrc_pid := SAMA5D4_ID_MPDDRC; is_sama5d4 := true |}
  end.

(** The memory-controller register writes of each initializer: the
    AT91RM9200 clears its low-power register, the others write nothing. *)
Definition soc_ramc_writes (v : soc) : list event :=
  match v with
  | AT91RM9200 => [E_ramc_write 0 AT91RM9200_SDRAMC_LPR 0]
  | _ => []
  end.

End Lifecycle.

(** ** Concrete inputs

    One choice of header values (those of the AT91 headers of this kernel
    generation, with a sample layout for the mode word) and a few boards,
    used to evaluate the model. *)

Module Sample.

Definition headers : Headers := {|
  PM_SUSPEND_ON := 0;
  PM_SUSPEND_STANDBY := 2;
  PM_SUSPEND_MEM := 3;
  AT91_PMC_SCSR := 0x08;
  AT91_PMC_PCK0 := Z.shiftl 1 8;
  AT91_PMC_PCKR := fun n => 0x40 + n * 4;
  AT91_PMC_CSS := 3;
  AT91_PMC_CSS_SLOW := 0;
  AT91_CKGR_UCKR := 0x1c;
  AT91_PMC_UPLLEN := Z.shiftl 1 16;
  AT91_PMC_SR := 0x68;
  AT91_PMC_LOCKB := Z.shiftl 1 2;
  AT91RM9200_PMC_UHP := Z.shiftl 1 4;
  AT91RM9200_PMC_UDP := Z.shiftl 1 1;
  AT91SAM926x_PMC_UHP := Z.shiftl 1 6;
  AT91SAM926x_PMC_UDP := Z.shiftl 1 7;
  AT91_PM_MODE := fun x => Z.shiftl (Z.land x 0x01) 4;
  AT91_PM_SLOW_CLOCK := 0x01;
  AT91_PM_DDRC_PID := fun x => Z.shiftl (Z.land x 0xff) 8;
  AT91_PM_IS_SAMA5D4 := fun x => Z.shiftl (Z.land x 0x01) 16;
  AT91_PM_SAMA5D4_BIT := 0x01;
  AT91_MEMCTRL_MC := 0;
  AT91_MEMCTRL_SDRAMC := 1;
  AT91_MEMCTRL_DDRSDR := 2;
  AT91RM9200_SDRAMC_LPR := 0x04;
  SAMA5D3_ID_MPDDRC := 49;
  SAMA5D4_ID_MPDDRC := 16;
  at91rm9200_standby := 0xc0010000;
  at91sam9_sdram_standby := 0xc0010040;
  at91_ddr_standby := 0xc0010080;
  at91_pm_suspend_in_sram := 0xc0012000;
  at91_pm_suspend_in_sram_sz := 0x100;
  fncpy := fun dest src _ => Z.lor dest (Z.land src 1)
|}.

(** The same headers with no standby routine declared for any flavor. *)
Definition headers_no_standby : Headers := {|
  PM_SUSPEND_ON := 0;
  PM_SUSPEND_STANDBY := 2;
  PM_SUSPEND_MEM := 3;
  AT91_PMC_SCSR := 0x08;
  AT91_PMC_PCK0 := Z.shiftl 1 8;
  AT91_PMC_PCKR := fun n => 0x40 + n * 4;
  AT91_PMC_CSS := 3;
  AT91_PMC_CSS_SLOW := 0;
  AT91_CKGR_UCKR := 0x1c;
  AT91_PMC_UPLLEN := Z.shiftl 1 16;
  AT91_PMC_SR := 0x68;
  AT91_PMC_LOCKB := Z.shiftl 1 2;
  AT91RM9200_PMC_UHP := Z.shiftl 1 4;
  AT91RM9200_PMC_UDP := Z.shiftl 1 1;
  AT91SAM926x_PMC_UHP := Z.shiftl 1 6;
  AT91SAM926x_PMC_UDP := Z.shiftl 1 7;
  AT91_PM_MODE := fun x => Z.shiftl (Z.land x 0x01) 4;
  AT91_PM_SLOW_CLOCK := 0x01;
  AT91_PM_DDRC_PID := fun x => Z.shiftl (Z.land x 0xff) 8;
  AT91_PM_IS_SAMA5D4 := fun x => Z.shiftl (Z.land x 0x01) 16;
  AT91_PM_SAMA5D4_BIT := 0x01;
  AT91_MEMCTRL_MC := 0;
  AT91_MEMCTRL_SDRAMC := 1;
  AT91_MEMCTRL_DDRSDR := 2;
  AT91RM9200_SDRAMC_LPR := 0x04;
  SAMA5D3_ID_MPDDRC := 49;
  SAMA5D4_ID_MPDDRC := 16;
  at91rm9200_standby := 0;
  at91sam9_sdram_standby := 0;
  at91_ddr_standby := 0;
  at91_pm_suspend_in_sram := 0xc0012000;
  at91_pm_suspend_in_sram_sz := 0x100;
  fncpy := fun dest src _ => Z.lor dest (Z.land src 1)
|}.

Definition sram_pool : gen_pool :=
  {| gen_pool_alloc := fun _ => 0xd0800000;
     gen_pool_virt_to_phys := fun v => v - 0xd0800000 + 0x00300000 |}.

Definition exhausted_pool : gen_pool :=
  {| gen_pool_alloc := fun _ => 0;
     gen_pool_virt_to_phys := fun v => v |}.

Definition sram_node : device_node :=
  {| compatible := ["mmio-sram"%string]; of_iomap0 := 0;
     of_find_device_by_node := Some {| dev_get_gen_pool := Some sram_pool |} |}.

Definition sram_node_exhausted : device_node :=
  {| compatible := ["mmio-sram"%string]; of_iomap0 := 0;
     of_find_device_by_node := Some {| dev_get_gen_pool := Some exhausted_pool |} |}.

Definition ddramc_node (base : Z) : device_node :=
  {| compatible := ["atmel,sama5d3-ddramc"%string]; of_iomap0 := base;
     of_find_device_by_node := None |}.

Definition uart_node : device_node :=
  {| compatible := ["atmel,at91sam9260-usart"%string]; of_iomap0 := 0xf8000000;
     of_find_device_by_node := None |}.

(** Clock-controller registers with every deep-suspend precondition met. *)
Definition quiet_regs : Z -> Z := fun _ => 0.

(** The same with the USB host clock (bit 6 of SCSR) still enabled. *)
Definition usb_regs : Z -> Z := fun field => if field =? 0x08 then 0x40 else 0.

Definition board_of (regs : Z -> Z) (dt : list device_node) : board :=
  {| at91_pmc_base := 0xfffffc00; pmc_regs := regs; device_tree := dt;
     arm_ioremap_exec := fun phys _ => phys + 0xe0000000 |}.

(** The state at boot: all statics zero, nothing traced. *)
Definition boot (b : board) : machine :=
  {| hw := b;
     at91_pm_data := {| uhp_udp_mask := 0; memctrl := 0; ddrc_pid := 0;
                        is_sama5d4 := false |};
     at91_ramc_base := [0; 0]; target_state := 0;
     at91_suspend_sram_fn := 0; cpuidle_platform_data := 0; trace := [] |}.

Definition sama5d3_dt : list device_node :=
  [uart_node; ddramc_node 0xffffea00; sram_node].

(** A SAMA5D3 after [sam5d3_pm_init], with the given clock registers. *)
Definition sama5d3 (regs : Z -> Z) : machine :=
  final_state (sam5d3_pm_init (hdr := headers) (boot (board_of regs sama5d3_dt))).

(** Description data with three memory-controller nodes. *)
Definition three_ramc_dt : list device_node :=
  [ddramc_node 0xffffe800; ddramc_node 0xffffea00; ddramc_node 0xffffec00].

End Sample.

(** * Proofs *)

(** ** The trace and the monad *)

(** Both sides are the same state up to the bracketing of the trace. *)
Ltac trace_eq :=
  cbn [map violation_log]; rewrite ?map_app; cbn [map app];
  rewrite <- ?app_assoc; cbn [app]; rewrite ?app_nil_r; reflexivity.

Lemma append_events_nil (m : machine) : append_events [] m = m.
Proof.
  destruct m; unfold append_events; cbn. now rewrite app_nil_r.
Qed.

Lemma append_events_app (l1 l2 : list event) (m : machine) :
  append_events l2 (append_events l1 m) = append_events (l1 ++ l2) m.
Proof.
  unfold append_events; cbn. now rewrite app_assoc.
Qed.

Lemma log_event_append (e : event) (m : machine) :
  log_event e m = append_events [e] m.
Proof. unfold log_event, append_events. reflexivity. Qed.

Lemma events_since_append (evs : list event) (m : machine) :
  events_since m (append_events evs m) = evs.
Proof.
  unfold events_since; cbn.
  rewrite skipn_app, skipn_all, Nat.sub_diag. reflexivity.
Qed.

Lemma events_since_target (s : Z) (evs : list event) (m : machine) :
  events_since m (set_target_state s (append_events evs m)) = evs.
Proof. exact (events_since_append evs m). Qed.

Lemma delivers_run {A} (c : M A) (m : machine) (r : A) (evs : list event) :
  delivers c m r evs -> c m = Done r (append_events evs m).
Proof.
  intros Hc. specialize (Hc []). now rewrite append_events_nil in Hc.
Qed.

Lemma delivers_ret {A} (a : A) (m : machine) : delivers (ret a) m a [].
Proof. intros pre. unfold ret. now rewrite app_nil_r. Qed.

Lemma delivers_emit (e : event) (m : machine) : delivers (emit e) m tt [e].
Proof.
  intros pre. unfold emit, modify.
  now rewrite log_event_append, append_events_app.
Qed.

Lemma delivers_bind {A B} (c : M A) (k : A -> M B) (m : machine)
  (a : A) (b : B) (e1 e2 : list event) :
  delivers c m a e1 -> delivers (k a) m b e2 ->
  delivers (bind c k) m b (e1 ++ e2).
Proof.
  intros Hc Hk pre. unfold bind. rewrite Hc, Hk. now rewrite app_assoc.
Qed.

Lemma count_event_app (p : event -> bool) (l1 l2 : list event) :
  count_event p (l1 ++ l2) = (count_event p l1 + count_event p l2)%nat.
Proof. unfold count_event. now rewrite filter_app, length_app. Qed.

Lemma count_event_zero (p : event -> bool) (l : list event) :
  Forall (fun e => p e = false) l -> count_event p l = 0%nat.
Proof.
  intros Hl. unfold count_event.
  induction Hl as [|e l He _ IH]; cbn; [reflexivity|]. now rewrite He.
Qed.

Lemma count_event_clock (p : event -> bool) (l : list event) :
  (forall e, is_clock_event e = true -> p e = false) ->
  Forall (fun e => is_clock_event e = true) l -> count_event p l = 0%nat.
Proof.
  intros Hp Hl. apply count_event_zero.
  eapply Forall_impl; [|exact Hl]. exact Hp.
Qed.

Section Proofs.
Context {hdr : Headers}.

(** ** The suspend states *)

(** C8: [at91_pm_valid_state] answers 1 exactly for the three states
    PM_SUSPEND_ON, PM_SUSPEND_STANDBY and PM_SUSPEND_MEM, and 0 for every
    other value. *)
Theorem at91_pm_valid_state_spec (state : Z) :
  (at91_pm_valid_state state = 1 <->
     state = PM_SUSPEND_ON \/ state = PM_SUSPEND_STANDBY \/
     state = PM_SUSPEND_MEM) /\
  (at91_pm_valid_state state = 0 <->
     state <> PM_SUSPEND_ON /\ state <> PM_SUSPEND_STANDBY /\
     state <> PM_SUSPEND_MEM).
Proof.
  unfold at91_pm_valid_state.
  destruct (Z.eqb_spec state PM_SUSPEND_ON) as [Hon|Hon];
    [|destruct (Z.eqb_spec state PM_SUSPEND_STANDBY) as [Hsb|Hsb];
       [|destruct (Z.eqb_spec state PM_SUSPEND_MEM) as [Hmem|Hmem]]];
    (split; split; intros Hs; try tauto; try discriminate).
Qed.

(** ** The clock validator *)

Lemma at91_pmc_read_delivers (field : Z) (m : machine) :
  delivers (at91_pmc_read field) m (pmc_reg m field) [E_pmc_read field].
Proof.
  intros pre. unfold at91_pmc_read, bind, emit, modify, get, ret, pmc_reg.
  now rewrite log_event_append, append_events_app.
Qed.

Lemma verify_pck_delivers (m : machine) (pcks : list Z) :
  delivers (verify_pck (pmc_reg m AT91_PMC_SCSR) pcks) m
    (forallb (pck_ok m) pcks)
    (map E_pmc_read (pck_registers m pcks) ++
     match find (fun i => negb (pck_ok m i)) pcks with
     | Some i => violation_log (Some (PckSource i (pck_source m i)))
     | None => []
     end).
Proof.
  induction pcks as [|i rest IH]; cbn [verify_pck pck_registers find forallb].
  - apply delivers_ret.
  - unfold pck_ok at 1 3, pck_enabled.
    destruct (Z.land (pmc_reg m AT91_PMC_SCSR) (Z.shiftl AT91_PMC_PCK0 i) =? 0)
      eqn:Hen; cbn [negb orb andb].
    + exact IH.
    + intros pre. unfold bind at 1.
      rewrite (at91_pmc_read_delivers (AT91_PMC_PCKR i) m pre).
      fold (pck_source m i).
      destruct (pck_source m i =? AT91_PMC_CSS_SLOW) eqn:Hcss; cbn [negb andb].
      * rewrite IH. cbn [map]. now rewrite <- !app_assoc.
      * unfold pr_err, bind, emit, modify, ret.
        rewrite log_event_append, append_events_app. cbn [map violation_log].
        now rewrite <- !app_assoc.
Qed.

Lemma find_none_forallb (m : machine) (pcks : list Z) :
  find (fun i => negb (pck_ok m i)) pcks = None <->
  forallb (pck_ok m) pcks = true.
Proof.
  induction pcks as [|i rest IH]; cbn; [tauto|].
  destruct (pck_ok m i); cbn; [exact IH|]. split; discriminate.
Qed.

Lemma at91_pm_verify_clocks_delivers (m : machine) :
  delivers at91_pm_verify_clocks m
    (match first_violation m with Some _ => 0 | None => 1 end)
    (map E_pmc_read (registers_inspected m) ++
     violation_log (first_violation m)).
Proof.
  intros pre. unfold at91_pm_verify_clocks. unfold bind at 1.
  rewrite (at91_pmc_read_delivers AT91_PMC_SCSR m pre).
  unfold bind at 1, get at 1. cbn [at91_pm_data append_events].
  unfold registers_inspected, first_violation.
  destruct (usb_clocks_off m) eqn:Husb; unfold usb_clocks_off in Husb;
    rewrite Husb; cbn [negb].
  2:{ unfold pr_err, bind, emit, modify, ret.
      rewrite log_event_append, append_events_app. trace_eq. }
  unfold bind at 1. rewrite (verify_pck_delivers m [0; 1; 2; 3]).
  pose proof (find_none_forallb m [0; 1; 2; 3]) as Hfind.
  destruct (find (fun i => negb (pck_ok m i)) [0; 1; 2; 3]) as [i|] eqn:Hf.
  { destruct (forallb (pck_ok m) [0; 1; 2; 3]) eqn:Hall.
    - destruct Hfind as [_ Hfind]. discriminate (Hfind eq_refl).
    - cbn [negb]. unfold ret. trace_eq. }
  destruct Hfind as [Hfind _]. rewrite (Hfind eq_refl). cbn [negb].
  unfold bind at 1. rewrite at91_pmc_read_delivers.
  destruct (usb_pll_off m) eqn:Hupll; unfold usb_pll_off in Hupll;
    rewrite Hupll; cbn [negb].
  2:{ unfold pr_err, bind, emit, modify, ret.
      rewrite log_event_append, append_events_app. trace_eq. }
  unfold bind at 1. rewrite at91_pmc_read_delivers.
  destruct (pllb_unlocked m) eqn:Hpllb; unfold pllb_unlocked in Hpllb;
    rewrite Hpllb; cbn [negb].
  - unfold ret. trace_eq.
  - unfold pr_err, bind, emit, modify, ret.
    rewrite log_event_append, append_events_app. trace_eq.
Qed.

Lemma first_violation_none (m : machine) :
  first_violation m = None <-> clocks_ok m.
Proof.
  unfold first_violation, clocks_ok.
  pose proof (find_none_forallb m [0; 1; 2; 3]) as Hfind.
  cbn [forallb] in Hfind. rewrite !andb_true_iff in Hfind.
  destruct (usb_clocks_off m); cbn [negb].
  2:{ split; [discriminate|]. intros [Husb _]. discriminate. }
  destruct (find (fun i => negb (pck_ok m i)) [0; 1; 2; 3]) as [i|].
  { split; [discriminate|]. intros (_ & Hpck & _).
    assert (Hnone : @None Z = None) by reflexivity.
    destruct Hfind as [_ Hfind].
    discriminate Hfind. repeat split; try apply Hpck; lia. }
  destruct Hfind as [Hfind _]. specialize (Hfind eq_refl).
  destruct Hfind as (H0 & H1 & H2 & H3 & _).
  assert (Hpck : forall i, 0 <= i < 4 -> pck_ok m i = true).
  { intros i Hi.
    assert (Hcases : i = 0 \/ i = 1 \/ i = 2 \/ i = 3) by lia.
    destruct Hcases as [->|[->|[->| ->]]]; assumption. }
  destruct (usb_pll_off m); cbn [negb].
  2:{ split; [discriminate|]. intros (_ & _ & Hupll & _). discriminate. }
  destruct (pllb_unlocked m); cbn [negb].
  - split; [intros _; repeat split; assumption | reflexivity].
  - split; [discriminate|]. intros (_ & _ & _ & Hpllb). discriminate.
Qed.

(** C2: the clock validator returns 1 exactly when the four preconditions
    hold (USB clocks off, every programmable clock off or on the slow
    clock, USB PLL off, PLL B unlocked) and 0 otherwise; it checks them in
    that order and returns at the first violation: it reads the registers
    up to that check only and logs that violation only. *)
Theorem at91_pm_verify_clocks_spec (m : machine) :
  (returned (at91_pm_verify_clocks m) = Some 1 <-> clocks_ok m) /\
  (returned (at91_pm_verify_clocks m) = Some 0 <-> ~ clocks_ok m) /\
  at91_pm_verify_clocks m =
    Done (match first_violation m with Some _ => 0 | None => 1 end)
         (append_events
            (map E_pmc_read (registers_inspected m) ++
             violation_log (first_violation m)) m).
Proof.
  pose proof (delivers_run _ _ _ _ (at91_pm_verify_clocks_delivers m)) as Hrun.
  pose proof (first_violation_none m) as Hnone.
  rewrite Hrun. cbn [returned].
  destruct (first_violation m) as [v|].
  - assert (Hbad : ~ clocks_ok m).
    { intros Hok. apply Hnone in Hok. discriminate. }
    split; [|split]; [split| |reflexivity].
    + intros Hr. discriminate Hr.
    + intros Hok. contradiction.
    + split; [intros _; exact Hbad | reflexivity].
  - assert (Hok : clocks_ok m) by now apply Hnone.
    split; [|split]; [split| |reflexivity].
    + intros _. exact Hok.
    + reflexivity.
    + split; [intros Hr; discriminate Hr | intros Hbad; contradiction].
Qed.

Lemma clock_events_only (m : machine) :
  Forall (fun e => is_clock_event e = true)
    (map E_pmc_read (registers_inspected m) ++
     violation_log (first_violation m)).
Proof.
  apply Forall_app. split.
  - apply Forall_forall. intros e He. apply in_map_iff in He.
    destruct He as (f & <- & _). reflexivity.
  - destruct (first_violation m) as [[| | |]|]; cbn;
      repeat constructor.
Qed.

(** ** Entering a low-power state *)

Lemma at91_pm_suspend_delivers (state : Z) (m : machine) :
  at91_suspend_sram_fn m <> 0 ->
  delivers (at91_pm_suspend state) m tt (suspend_events m state).
Proof.
  intros Hfn pre. apply Z.eqb_neq in Hfn.
  unfold at91_pm_suspend, call_suspend_sram_fn, bind, get, emit, modify.
  cbn [at91_pm_data at91_suspend_sram_fn hw at91_ramc_base append_events
       log_event].
  rewrite Hfn. unfold suspend_events, log_event, append_events. cbn.
  now rewrite <- !app_assoc.
Qed.

Lemma transition_delivers (state : Z) (m : machine) :
  at91_suspend_sram_fn m <> 0 \/
  (state = PM_SUSPEND_MEM /\ first_violation m <> None) \/
  (state <> PM_SUSPEND_MEM /\ state <> PM_SUSPEND_STANDBY) ->
  delivers
    (if state =? PM_SUSPEND_MEM then
       ok <- at91_pm_verify_clocks ;;
       if ok =? 0 then ret tt else at91_pm_suspend state
     else if state =? PM_SUSPEND_STANDBY then at91_pm_suspend state
     else if state =? PM_SUSPEND_ON then emit E_cpu_do_idle
     else pr_debug "AT91: PM - bogus suspend state %d" [ArgInt state])
    m tt (transition_events m state).
Proof.
  intros Hsafe. unfold transition_events.
  destruct (Z.eqb_spec state PM_SUSPEND_MEM) as [Hmem|Hmem].
  - pose proof (at91_pm_verify_clocks_delivers m) as Hverify.
    destruct (first_violation m) as [v|] eqn:Hv.
    + rewrite <- (app_nil_r (_ ++ _)).
      eapply delivers_bind; [exact Hverify|]. apply delivers_ret.
    + cbn [violation_log] in Hverify. rewrite app_nil_r in Hverify.
      eapply delivers_bind; [exact Hverify|]. cbn [Z.eqb].
      apply at91_pm_suspend_delivers.
      destruct Hsafe as [Hfn|[[_ Hbad]|[Hno _]]]; congruence.
  - destruct (Z.eqb_spec state PM_SUSPEND_STANDBY) as [Hsb|Hsb].
    + apply at91_pm_suspend_delivers.
      destruct Hsafe as [Hfn|[[Hno _]|[_ Hno]]]; congruence.
    + destruct (state =? PM_SUSPEND_ON); apply delivers_emit.
Qed.

Lemma at91_pm_enter_run (state : Z) (m : machine) :
  at91_suspend_sram_fn m <> 0 \/
  (state = PM_SUSPEND_MEM /\ first_violation m <> None) \/
  (state <> PM_SUSPEND_MEM /\ state <> PM_SUSPEND_STANDBY) ->
  at91_pm_enter state m =
    Done 0 (set_target_state PM_SUSPEND_ON
              (append_events
                 (E_pinctrl_gpio_suspend ::
                  transition_events m state ++ [E_pinctrl_gpio_resume]) m)).
Proof.
  intros Hsafe. unfold at91_pm_enter.
  unfold bind at 1, emit at 1, modify at 1.
  rewrite log_event_append. rewrite <- (append_events_nil m) at 1.
  rewrite append_events_app. unfold bind at 1.
  rewrite (transition_delivers state m Hsafe).
  unfold bind, modify, emit, ret, set_target_state, log_event, append_events.
  cbn. now rewrite <- !app_assoc.
Qed.

(** C1: when the clock validator reports failure, [at91_pm_enter] for
    PM_SUSPEND_MEM never calls the relocated routine, flushes no cache and
    does not disable the outer cache; after the validator's own events it
    goes straight to the cleanup (target state reset, GPIO resumed). *)
Theorem at91_pm_enter_clock_failure (m : machine) :
  returned (at91_pm_verify_clocks m) = Some 0 ->
  exists m' evs,
    at91_pm_verify_clocks m = Done 0 (append_events evs m) /\
    at91_pm_enter PM_SUSPEND_MEM m = Done 0 m' /\
    events_since m m' =
      E_pinctrl_gpio_suspend :: evs ++ [E_pinctrl_gpio_resume] /\
    count_event is_suspend_sram_fn (events_since m m') = 0%nat /\
    count_event is_flush_cache_all (events_since m m') = 0%nat /\
    count_event is_outer_disable (events_since m m') = 0%nat /\
    target_state m' = PM_SUSPEND_ON.
Proof.
  intros Hfail.
  pose proof (delivers_run _ _ _ _ (at91_pm_verify_clocks_delivers m)) as Hrun.
  rewrite Hrun in Hfail. cbn [returned] in Hfail.
  destruct (first_violation m) as [v|] eqn:Hv; [clear Hfail|discriminate Hfail].
  pose proof (clock_events_only m) as Hclock. rewrite Hv in Hclock.
  eexists. exists (map E_pmc_read (registers_inspected m) ++
                   violation_log (Some v)).
  split; [exact Hrun|]. split.
  { apply at91_pm_enter_run. right. left. split; [reflexivity|].
    rewrite Hv. discriminate. }
  rewrite events_since_target. unfold transition_events.
  rewrite Z.eqb_refl, Hv.
  set (evs := map E_pmc_read (registers_inspected m) ++ violation_log (Some v))
    in *.
  split; [reflexivity|].
  change (E_pinctrl_gpio_suspend :: ?l) with ([E_pinctrl_gpio_suspend] ++ l).
  rewrite !count_event_app.
  rewrite (count_event_clock is_suspend_sram_fn _ ltac:(now intros []) Hclock).
  rewrite (count_event_clock is_flush_cache_all _ ltac:(now intros []) Hclock).
  rewrite (count_event_clock is_outer_disable _ ltac:(now intros []) Hclock).
  repeat split; reflexivity.
Qed.

Lemma transition_events_no_gpio (state : Z) (m : machine) :
  Forall (fun e => is_gpio_suspend e = false /\ is_gpio_resume e = false)
    (transition_events m state).
Proof.
  assert (Hsuspend : Forall
            (fun e => is_gpio_suspend e = false /\ is_gpio_resume e = false)
            (suspend_events m state)).
  { unfold suspend_events. repeat constructor. }
  unfold transition_events.
  destruct (state =? PM_SUSPEND_MEM).
  - apply Forall_app. split.
    + apply Forall_forall. intros e He. apply in_map_iff in He.
      destruct He as (f & <- & _). now split.
    + destruct (first_violation m) as [[| | |]|]; [| | | |exact Hsuspend];
        repeat constructor.
  - destruct (state =? PM_SUSPEND_STANDBY); [exact Hsuspend|].
    destruct (state =? PM_SUSPEND_ON); repeat constructor.
Qed.

(** C4: whatever state is passed, [at91_pm_enter] returns 0 and cleans up
    first: the target state is PM_SUSPEND_ON again, and the call made
    exactly one GPIO suspend (its first event) and exactly one GPIO resume
    (its last event).  The suspend operations are registered only with a
    non-null relocated routine, which is what the hypothesis says. *)
Theorem at91_pm_enter_cleanup (state : Z) (m : machine) :
  at91_suspend_sram_fn m <> 0 ->
  exists m' body,
    at91_pm_enter state m = Done 0 m' /\
    target_state m' = PM_SUSPEND_ON /\
    events_since m m' =
      E_pinctrl_gpio_suspend :: body ++ [E_pinctrl_gpio_resume] /\
    count_event is_gpio_suspend (events_since m m') = 1%nat /\
    count_event is_gpio_resume (events_since m m') = 1%nat.
Proof.
  intros Hfn. eexists. exists (transition_events m state).
  split; [apply at91_pm_enter_run; now left|].
  rewrite events_since_target. split; [reflexivity|]. split; [reflexivity|].
  pose proof (transition_events_no_gpio state m) as Hbody.
  change (E_pinctrl_gpio_suspend :: ?l) with ([E_pinctrl_gpio_suspend] ++ l).
  rewrite !count_event_app.
  rewrite (count_event_zero is_gpio_suspend (transition_events m state)).
  2:{ eapply Forall_impl; [|exact Hbody]. now intros e [Hs _]. }
  rewrite (count_event_zero is_gpio_resume (transition_events m state)).
  2:{ eapply Forall_impl; [|exact Hbody]. now intros e [_ Hr]. }
  split; reflexivity.
Qed.

(** ** The deep-suspend query *)

Lemma slow_clock_query_delivers (m : machine) :
  delivers at91_suspend_entering_slow_clock m
    (if target_state m =? PM_SUSPEND_MEM then 1 else 0) [].
Proof.
  intros pre. unfold at91_suspend_entering_slow_clock, bind, get, ret.
  cbn [target_state append_events]. now rewrite app_nil_r.
Qed.

Lemma run_queries_delivers (qs : list pm_query) (m : machine) :
  exists evs, delivers (run_queries qs) m tt evs.
Proof.
  induction qs as [|q rest [evs IH]]; cbn [run_queries].
  - exists []. apply delivers_ret.
  - destruct q as [state| |]; cbn [run_query].
    + exists ([] ++ evs). eapply delivers_bind; [apply delivers_ret|exact IH].
    + exists ([] ++ evs).
      eapply delivers_bind; [apply slow_clock_query_delivers|exact IH].
    + eexists.
      eapply delivers_bind; [apply at91_pm_verify_clocks_delivers|exact IH].
Qed.

(** C9: after [at91_pm_begin s] the exported query answers 1 exactly when
    [s] is PM_SUSPEND_MEM; it keeps that answer over any further calls
    that are not [enter] or [end]; and once [at91_pm_enter] (with any
    state) or [at91_pm_end] has run, it answers 0. *)
Theorem slow_clock_query_follows_begin (s : Z) (qs : list pm_query)
  (m : machine) :
  PM_SUSPEND_ON <> PM_SUSPEND_MEM ->
  at91_suspend_sram_fn m <> 0 ->
  exists m1 m2,
    at91_pm_begin s m = Done 0 m1 /\
    returned (at91_suspend_entering_slow_clock m1) =
      Some (if s =? PM_SUSPEND_MEM then 1 else 0) /\
    run_queries qs m1 = Done tt m2 /\
    returned (at91_suspend_entering_slow_clock m2) =
      Some (if s =? PM_SUSPEND_MEM then 1 else 0) /\
    (forall s', exists m3,
        at91_pm_enter s' m2 = Done 0 m3 /\
        returned (at91_suspend_entering_slow_clock m3) = Some 0) /\
    (exists m3,
        at91_pm_end m2 = Done tt m3 /\
        returned (at91_suspend_entering_slow_clock m3) = Some 0).
Proof.
  intros Hon Hfn. apply Z.eqb_neq in Hon.
  destruct (run_queries_delivers qs (set_target_state s m)) as [evs Hqs].
  exists (set_target_state s m), (append_events evs (set_target_state s m)).
  split; [reflexivity|].
  split.
  { rewrite (delivers_run _ _ _ _ (slow_clock_query_delivers _)).
    reflexivity. }
  split; [exact (delivers_run _ _ _ _ Hqs)|].
  split.
  { rewrite (delivers_run _ _ _ _ (slow_clock_query_delivers _)).
    reflexivity. }
  split.
  - intros s'. eexists. split.
    + apply at91_pm_enter_run. left. exact Hfn.
    + rewrite (delivers_run _ _ _ _ (slow_clock_query_delivers _)).
      cbn [returned target_state set_target_state]. now rewrite Hon.
  - eexists. split; [reflexivity|].
    rewrite (delivers_run _ _ _ _ (slow_clock_query_delivers _)).
    cbn [returned target_state set_target_state]. now rewrite Hon.
Qed.

(** ** The mode word *)

Lemma u32_ones (x : Z) : u32 x = Z.land x (Z.ones 32).
Proof. unfold u32. now rewrite Z.land_ones by lia. Qed.

Lemma u32_lor (x y : Z) : u32 (Z.lor x y) = Z.lor (u32 x) (u32 y).
Proof. rewrite !u32_ones. apply Z.land_lor_distr_l. Qed.

Lemma u32_idem (x : Z) : u32 (u32 x) = u32 x.
Proof. unfold u32. apply Z.mod_mod. lia. Qed.

(** The mode word is the bitwise or of its four fields. *)
Lemma pm_mode_word_fields (d : pm_data) (state : Z) :
  pm_mode_word d state =
    Z.lor (Z.lor (Z.lor (u32 (memctrl d))
                        (if state =? PM_SUSPEND_MEM then deep_flag else 0))
                 (u32 (AT91_PM_DDRC_PID (ddrc_pid d))))
          (if is_sama5d4 d then u32 (AT91_PM_IS_SAMA5D4 AT91_PM_SAMA5D4_BIT)
           else 0).
Proof.
  unfold pm_mode_word, deep_flag. rewrite !u32_lor, !u32_idem.
  destruct (state =? PM_SUSPEND_MEM), (is_sama5d4 d); reflexivity.
Qed.

Lemma land_lor_self_l (a b : Z) : Z.land (Z.lor a b) a = a.
Proof.
  apply Z.bits_inj'. intros n _. rewrite Z.land_spec, Z.lor_spec.
  destruct (Z.testbit a n), (Z.testbit b n); reflexivity.
Qed.

Lemma has_bits_lor_l (a b mask : Z) :
  has_bits a mask -> has_bits (Z.lor a b) mask.
Proof.
  unfold has_bits. intros Ha. apply Z.bits_inj'. intros n _.
  apply (f_equal (fun z => Z.testbit z n)) in Ha.
  rewrite Z.land_spec in Ha. rewrite Z.land_spec, Z.lor_spec.
  destruct (Z.testbit a n), (Z.testbit b n), (Z.testbit mask n);
    cbn in *; congruence.
Qed.

Lemma has_bits_lor_r (a b : Z) : has_bits (Z.lor a b) b.
Proof. unfold has_bits. rewrite Z.lor_comm. apply land_lor_self_l. Qed.

(** C3: the mode word that [at91_pm_suspend] hands to the relocated
    routine is exactly the bitwise or of the profile's memory-controller
    kind, the deep-clock-gating flag when the state is PM_SUSPEND_MEM,
    the device-id field and, for the SAMA5D4 only, the variant flag: it
    has no other bit.  So the deep flag is set exactly when the state is
    PM_SUSPEND_MEM, and each packed field reads back through any mask
    that the other fields leave alone; the variant flag is set exactly
    for the SAMA5D4.  The hypotheses say that the deep flag is a bit of
    the word that no other field of the layout occupies. *)
Theorem at91_pm_suspend_mode_word (state : Z) (m : machine) :
  at91_suspend_sram_fn m <> 0 ->
  deep_flag <> 0 ->
  Z.land (u32 (memctrl (at91_pm_data m))) deep_flag = 0 ->
  Z.land (u32 (AT91_PM_DDRC_PID (ddrc_pid (at91_pm_data m)))) deep_flag = 0 ->
  Z.land (u32 (AT91_PM_IS_SAMA5D4 AT91_PM_SAMA5D4_BIT)) deep_flag = 0 ->
  exists w,
    at91_pm_suspend state m =
      Done tt (append_events
                 [ E_flush_cache_all; E_outer_disable;
                   E_suspend_sram_fn (at91_suspend_sram_fn m)
                     (at91_pmc_base (hw m))
                     (nth 0 (at91_ramc_base m) 0)
                     (nth 1 (at91_ramc_base m) 0) w;
                   E_outer_resume ] m) /\
    w = Z.lor
          (Z.lor
             (Z.lor (u32 (memctrl (at91_pm_data m)))
                    (if state =? PM_SUSPEND_MEM then deep_flag else 0))
             (u32 (AT91_PM_DDRC_PID (ddrc_pid (at91_pm_data m)))))
          (if is_sama5d4 (at91_pm_data m)
           then u32 (AT91_PM_IS_SAMA5D4 AT91_PM_SAMA5D4_BIT) else 0) /\
    (has_bits w deep_flag <-> state = PM_SUSPEND_MEM) /\
    has_bits w (u32 (memctrl (at91_pm_data m))) /\
    has_bits w (u32 (AT91_PM_DDRC_PID (ddrc_pid (at91_pm_data m)))) /\
    (is_sama5d4 (at91_pm_data m) = true ->
     has_bits w (u32 (AT91_PM_IS_SAMA5D4 AT91_PM_SAMA5D4_BIT))) /\
    (forall mask,
        Z.land deep_flag mask = 0 ->
        Z.land (u32 (AT91_PM_DDRC_PID (ddrc_pid (at91_pm_data m)))) mask = 0 ->
        Z.land (u32 (AT91_PM_IS_SAMA5D4 AT91_PM_SAMA5D4_BIT)) mask = 0 ->
        Z.land w mask = Z.land (u32 (memctrl (at91_pm_data m))) mask) /\
    (forall mask,
        Z.land (u32 (memctrl (at91_pm_data m))) mask = 0 ->
        Z.land deep_flag mask = 0 ->
        Z.land (u32 (AT91_PM_IS_SAMA5D4 AT91_PM_SAMA5D4_BIT)) mask = 0 ->
        Z.land w mask =
          Z.land (u32 (AT91_PM_DDRC_PID (ddrc_pid (at91_pm_data m)))) mask) /\
    (u32 (AT91_PM_IS_SAMA5D4 AT91_PM_SAMA5D4_BIT) <> 0 ->
     Z.land (u32 (memctrl (at91_pm_data m)))
            (u32 (AT91_PM_IS_SAMA5D4 AT91_PM_SAMA5D4_BIT)) = 0 ->
     Z.land (u32 (AT91_PM_DDRC_PID (ddrc_pid (at91_pm_data m))))
            (u32 (AT91_PM_IS_SAMA5D4 AT91_PM_SAMA5D4_BIT)) = 0 ->
     (has_bits w (u32 (AT91_PM_IS_SAMA5D4 AT91_PM_SAMA5D4_BIT)) <->
      is_sama5d4 (at91_pm_data m) = true)).
Proof.
  intros Hfn Hflag Hkind Hpid Hvariant.
  exists (pm_mode_word (at91_pm_data m) state).
  split; [exact (delivers_run _ _ _ _ (at91_pm_suspend_delivers state m Hfn))|].
  split; [apply pm_mode_word_fields|].
  rewrite pm_mode_word_fields.
  set (kind := u32 (memctrl (at91_pm_data m))) in *.
  set (pid := u32 (AT91_PM_DDRC_PID (ddrc_pid (at91_pm_data m)))) in *.
  set (variant := u32 (AT91_PM_IS_SAMA5D4 AT91_PM_SAMA5D4_BIT)) in *.
  assert (Hflagpart : forall mask,
             Z.land deep_flag mask = 0 ->
             Z.land (if state =? PM_SUSPEND_MEM then deep_flag else 0) mask = 0).
  { intros mask Hm. destruct (state =? PM_SUSPEND_MEM); [exact Hm|reflexivity]. }
  assert (Hvarpart : forall mask,
             Z.land variant mask = 0 ->
             Z.land (if is_sama5d4 (at91_pm_data m) then variant else 0) mask
             = 0).
  { intros mask Hm.
    destruct (is_sama5d4 (at91_pm_data m)); [exact Hm|reflexivity]. }
  split; [|split; [|split; [|split; [|split; [|split]]]]].
  - unfold has_bits.
    rewrite !Z.land_lor_distr_l, Hkind, Hpid, (Hvarpart _ Hvariant).
    rewrite !Z.lor_0_r, Z.lor_0_l.
    destruct (Z.eqb_spec state PM_SUSPEND_MEM) as [Hmem|Hmem].
    + rewrite Z.land_diag. tauto.
    + rewrite Z.land_0_l. split; [congruence|contradiction].
  - do 3 apply has_bits_lor_l. unfold has_bits. apply Z.land_diag.
  - apply has_bits_lor_l, has_bits_lor_r.
  - intros Hvar. rewrite Hvar. apply has_bits_lor_r.
  - intros mask Hd Hp Hv.
    rewrite !Z.land_lor_distr_l, (Hflagpart _ Hd), Hp, (Hvarpart _ Hv).
    now rewrite !Z.lor_0_r.
  - intros mask Hk Hd Hv.
    rewrite !Z.land_lor_distr_l, Hk, (Hflagpart _ Hd), (Hvarpart _ Hv).
    now rewrite !Z.lor_0_r, Z.lor_0_l.
  - intros Hnz Hk Hp. unfold has_bits.
    rewrite !Z.land_lor_distr_l, Hk, Hp.
    rewrite (Hflagpart variant) by (rewrite Z.land_comm; exact Hvariant).
    rewrite !Z.lor_0_l.
    destruct (is_sama5d4 (at91_pm_data m)).
    + rewrite Z.land_diag. tauto.
    + rewrite Z.land_0_l. split; [congruence|discriminate].
Qed.

(** ** SRAM relocation *)

Lemma set_suspend_sram_fn_same (m : machine) :
  set_suspend_sram_fn (at91_suspend_sram_fn m) m = m.
Proof. now destruct m. Qed.

Lemma at91_pm_sram_init_failure_run (m : machine) :
  sram_failure m ->
  exists f fmt args,
    (f = at91_suspend_sram_fn m \/ f = 0) /\
    at91_pm_sram_init m =
      Done tt (append_events [E_printk KERN_WARNING fmt args]
                 (set_suspend_sram_fn f m)).
Proof.
  intros Hfail. unfold at91_pm_sram_init, bind, get.
  destruct Hfail as [Hdev|pdev Hdev Hpool|pdev pool Hdev Hpool Halloc
                    |pdev pool Hdev Hpool Halloc Hmap];
    rewrite Hdev; try rewrite Hpool.
  - exists (at91_suspend_sram_fn m). do 2 eexists. split; [now left|].
    rewrite set_suspend_sram_fn_same. reflexivity.
  - exists (at91_suspend_sram_fn m). do 2 eexists. split; [now left|].
    rewrite set_suspend_sram_fn_same. reflexivity.
  - exists (at91_suspend_sram_fn m). do 2 eexists. split; [now left|].
    rewrite Halloc, set_suspend_sram_fn_same. reflexivity.
  - apply Z.eqb_neq in Halloc. rewrite Halloc.
    exists 0. do 2 eexists. split; [now right|].
    unfold modify. cbn [hw set_suspend_sram_fn at91_suspend_sram_fn].
    rewrite Hmap. reflexivity.
Qed.

Lemma at91_pm_sram_init_run (m : machine) :
  exists f evs,
    at91_pm_sram_init m = Done tt (append_events evs (set_suspend_sram_fn f m)) /\
    Forall (fun e => is_suspend_set_ops e = false) evs.
Proof.
  unfold at91_pm_sram_init, bind, get.
  destruct (find_sram_pdev (device_tree (hw m)) None) as [pdev|].
  2:{ exists (at91_suspend_sram_fn m). eexists.
      rewrite set_suspend_sram_fn_same. split; [reflexivity|].
      repeat constructor. }
  destruct (dev_get_gen_pool pdev) as [pool|].
  2:{ exists (at91_suspend_sram_fn m). eexists.
      rewrite set_suspend_sram_fn_same. split; [reflexivity|].
      repeat constructor. }
  destruct (gen_pool_alloc pool at91_pm_suspend_in_sram_sz =? 0).
  { exists (at91_suspend_sram_fn m). eexists.
    rewrite set_suspend_sram_fn_same. split; [reflexivity|].
    repeat constructor. }
  unfold modify. cbn [hw set_suspend_sram_fn at91_suspend_sram_fn].
  destruct (arm_ioremap_exec (hw m) _ _ =? 0) eqn:Hmap.
  - apply Z.eqb_eq in Hmap. rewrite Hmap. exists 0. eexists.
    split; [reflexivity|]. repeat constructor.
  - eexists. exists []. split; [|constructor].
    unfold append_events, set_suspend_sram_fn. cbn.
    now rewrite app_nil_r.
Qed.

Lemma at91_pm_init_after (m m1 : machine) :
  at91_pm_sram_init m = Done tt m1 ->
  at91_pm_init m =
    Done tt
      (append_events
         ((if negb (cpuidle_platform_data m1 =? 0)
           then [E_platform_device_register (cpuidle_platform_data m1)]
           else []) ++
          [if negb (at91_suspend_sram_fn m1 =? 0) then E_suspend_set_ops
           else E_printk KERN_INFO
                  "AT91: PM not supported, due to no SRAM allocated" []])
         m1).
Proof.
  intros Hrun. unfold at91_pm_init. unfold bind at 1. rewrite Hrun.
  unfold bind, get, emit, modify, ret, pr_info, emit, modify.
  destruct (negb (cpuidle_platform_data m1 =? 0));
    cbn [at91_suspend_sram_fn log_event];
    destruct (negb (at91_suspend_sram_fn m1 =? 0));
    rewrite ?log_event_append, ?append_events_app; reflexivity.
Qed.

(** C5: when a step of the SRAM relocation fails (no SRAM device, no
    backing pool, no block from the pool, no executable mapping), the
    routine pointer stays null and [at91_pm_init] carries on without
    stopping the system, logging only; and whenever the pointer is null
    after the relocation, [at91_pm_init] does not register the suspend
    operations. *)
Theorem at91_pm_sram_init_failure (m : machine) :
  exists m1 m2,
    at91_pm_sram_init m = Done tt m1 /\
    at91_pm_init m = Done tt m2 /\
    (at91_suspend_sram_fn m = 0 -> sram_failure m ->
     at91_suspend_sram_fn m1 = 0 /\
     exists fmt args, events_since m m1 = [E_printk KERN_WARNING fmt args]) /\
    (at91_suspend_sram_fn m1 = 0 ->
     at91_suspend_sram_fn m2 = 0 /\
     count_event is_suspend_set_ops (events_since m m2) = 0%nat /\
     last (events_since m m2) E_suspend_set_ops =
       E_printk KERN_INFO
         "AT91: PM not supported, due to no SRAM allocated" []).
Proof.
  destruct (at91_pm_sram_init_run m) as (f & evs & Hrun & Hevs).
  pose proof (at91_pm_init_after m _ Hrun) as Hinit.
  do 2 eexists. split; [exact Hrun|]. split; [exact Hinit|]. split.
  - intros Hnull Hfail.
    destruct (at91_pm_sram_init_failure_run m Hfail)
      as (f' & fmt & args & Hf & Hrun').
    rewrite Hrun' in Hrun. injection Hrun as Hff Htrace.
    apply app_inv_head in Htrace. subst f evs.
    cbn [at91_suspend_sram_fn append_events set_suspend_sram_fn].
    split; [destruct Hf; congruence|].
    exists fmt, args. exact (events_since_append _ m).
  - cbn [at91_suspend_sram_fn cpuidle_platform_data append_events
         set_suspend_sram_fn].
    intros Hnull. rewrite Hnull. cbn [Z.eqb negb].
    split; [reflexivity|].
    rewrite append_events_app.
    change (events_since m (append_events ?l (set_suspend_sram_fn 0 m)))
      with (events_since m (append_events l m)).
    rewrite events_since_append.
    split.
    + rewrite !count_event_app, (count_event_zero _ _ Hevs).
      destruct (negb (cpuidle_platform_data m =? 0)); reflexivity.
    + rewrite app_assoc. apply last_last.
Qed.

(** ** Memory-controller discovery *)

Lemma set_ramc_base_same (m : machine) :
  set_ramc_base (at91_ramc_base m) m = m.
Proof. now destruct m. Qed.

(** One iteration of the discovery loop. *)
Lemma dt_ramc_loop_step (np : device_node) (id : of_device_id)
  (rest : list (device_node * of_device_id)) (idx standby : Z) (m : machine) :
  dt_ramc_loop ((np, id) :: rest) idx standby m =
    if (0 <=? idx) && (idx <? 2) then
      let m1 := set_ramc_base
                  (if idx =? 0 then [of_iomap0 np; nth 1 (at91_ramc_base m) 0]
                   else [nth 0 (at91_ramc_base m) 0; of_iomap0 np]) m in
      if of_iomap0 np =? 0 then Halted (map_panic idx) m1
      else dt_ramc_loop rest (idx + 1)
             (if standby =? 0 then id_data id else standby) m1
    else Halted (OutOfBounds idx) m.
Proof.
  cbn [dt_ramc_loop]. unfold bind at 1, store_ramc_base.
  destruct (Z.leb_spec 0 idx) as [Hlo|Hlo]; cbn [andb]; [|reflexivity].
  destruct (Z.ltb_spec idx 2) as [Hhi|Hhi]; [|reflexivity].
  unfold modify, bind, get. cbn [at91_ramc_base set_ramc_base].
  assert (Hidx : idx = 0 \/ idx = 1) by lia.
  destruct Hidx as [-> | ->];
    [change (Z.to_nat 0) with 0%nat | change (Z.to_nat 1) with 1%nat];
    cbn [Z.eqb nth]; destruct (of_iomap0 np =? 0); reflexivity.
Qed.

(** When the loop runs to its end it has counted the nodes, has found no
    standby routine unless a node declared one, and has only stored base
    addresses. *)
Lemma dt_ramc_loop_done (nodes : list (device_node * of_device_id)) :
  forall (idx standby : Z) (m : machine) (r : Z * Z) (m1 : machine),
    dt_ramc_loop nodes idx standby m = Done r m1 ->
    fst r = idx + Z.of_nat (List.length nodes) /\
    (standby = 0 -> Forall no_standby nodes -> snd r = 0) /\
    Forall maps_ok nodes /\
    exists bases, m1 = set_ramc_base bases m.
Proof.
  induction nodes as [|[np id] rest IH]; intros idx standby m r m1 Hrun.
  - cbn in Hrun. injection Hrun as <- <-. cbn.
    repeat split; [lia|tauto|constructor|].
    exists (at91_ramc_base m). now rewrite set_ramc_base_same.
  - rewrite dt_ramc_loop_step in Hrun.
    destruct ((0 <=? idx) && (idx <? 2)); [|discriminate Hrun].
    cbv zeta in Hrun.
    destruct (Z.eqb_spec (of_iomap0 np) 0) as [Hmap|Hmap]; [discriminate Hrun|].
    apply IH in Hrun. destruct Hrun as (Hidx & Hstandby & Hmaps & bases & ->).
    repeat split.
    + rewrite Hidx. cbn [List.length]. lia.
    + intros -> Hno. inversion Hno as [|n l Hid Hrest]; subst.
      apply Hstandby; [|exact Hrest]. exact Hid.
    + constructor; [exact Hmap|exact Hmaps].
    + exists bases. reflexivity.
Qed.

(** The loop stops the system only for a mapping failure or for a store
    past the end of the array. *)
Lemma dt_ramc_loop_halted (nodes : list (device_node * of_device_id)) :
  forall (idx standby : Z) (m : machine) (h : halt) (m1 : machine),
    dt_ramc_loop nodes idx standby m = Halted h m1 ->
    exists i, h = map_panic i \/ h = OutOfBounds i.
Proof.
  induction nodes as [|[np id] rest IH]; intros idx standby m h m1 Hrun.
  - discriminate Hrun.
  - rewrite dt_ramc_loop_step in Hrun.
    destruct ((0 <=? idx) && (idx <? 2)).
    + cbv zeta in Hrun. destruct (of_iomap0 np =? 0).
      * injection Hrun as <- _. exists idx. now left.
      * exact (IH _ _ _ _ _ Hrun).
    + injection Hrun as <- _. exists idx. now right.
Qed.

(** A node that cannot be mapped stops the loop. *)
Lemma dt_ramc_loop_map_failure (nodes : list (device_node * of_device_id)) :
  forall (idx standby : Z) (m : machine),
    Exists (fun n => of_iomap0 (fst n) = 0) nodes ->
    exists h m1, dt_ramc_loop nodes idx standby m = Halted h m1.
Proof.
  intros idx standby m Hbad.
  destruct (dt_ramc_loop nodes idx standby m) as [r m1|h m1] eqn:Hrun.
  - apply dt_ramc_loop_done in Hrun. destruct Hrun as (_ & _ & Hmaps & _).
    apply Exists_exists in Hbad. destruct Hbad as (n & Hin & Hn).
    rewrite Forall_forall in Hmaps. now destruct (Hmaps n Hin).
  - now exists h, m1.
Qed.

(** The nodes before the first that cannot be mapped are stored, and the
    panic names the index of that one, if it is inside the array. *)
Lemma dt_ramc_loop_first_failure (pre : list (device_node * of_device_id)) :
  forall (n : device_node * of_device_id)
         (post : list (device_node * of_device_id))
         (idx standby : Z) (m : machine),
    Forall maps_ok pre -> of_iomap0 (fst n) = 0 ->
    0 <= idx -> idx + Z.of_nat (List.length pre) < 2 ->
    stopped (dt_ramc_loop (pre ++ n :: post) idx standby m) =
      Some (map_panic (idx + Z.of_nat (List.length pre))).
Proof.
  induction pre as [|[np id] pre IH];
    intros [np' id'] post idx standby m Hpre Hn Hlo Hhi.
  - cbn [app List.length Z.of_nat] in *. rewrite dt_ramc_loop_step.
    cbn [fst] in Hn. rewrite Hn.
    replace ((0 <=? idx) && (idx <? 2)) with true by lia.
    cbn. now rewrite Z.add_0_r.
  - cbn [app]. rewrite dt_ramc_loop_step.
    cbn [List.length] in Hhi.
    replace ((0 <=? idx) && (idx <? 2)) with true by lia.
    inversion Hpre as [|x l Hmap Hrest]; subst. unfold maps_ok in Hmap.
    cbn [fst] in Hmap. apply Z.eqb_neq in Hmap. cbv zeta. rewrite Hmap.
    rewrite IH; [|assumption|assumption|lia|lia].
    cbn [List.length]. do 2 f_equal. lia.
Qed.

(** With every node mapped and room in the array, the loop runs to its
    end and has stored the base addresses in discovery order. *)
Lemma dt_ramc_loop_completes (nodes : list (device_node * of_device_id)) :
  forall (idx standby : Z) (m : machine),
    Forall maps_ok nodes ->
    0 <= idx -> idx + Z.of_nat (List.length nodes) <= 2 ->
    exists r m1, dt_ramc_loop nodes idx standby m = Done r m1.
Proof.
  induction nodes as [|[np id] rest IH]; intros idx standby m Hmaps Hlo Hhi.
  - do 2 eexists. reflexivity.
  - rewrite dt_ramc_loop_step. cbn [List.length] in Hhi.
    replace ((0 <=? idx) && (idx <? 2)) with true by lia.
    inversion Hmaps as [|x l Hmap Hrest]; subst. unfold maps_ok in Hmap.
    cbn [fst] in Hmap. apply Z.eqb_neq in Hmap. cbv zeta. rewrite Hmap.
    apply IH; [exact Hrest|lia|lia].
Qed.

Lemma at91_dt_ramc_unfold (m : machine) :
  at91_dt_ramc m =
    match dt_ramc_loop (ramc_nodes m) 0 0 m with
    | Done (idx, standby) m1 =>
        if idx =? 0 then Halted no_node_panic m1
        else if standby =? 0 then
          Done tt (append_events
                     [E_printk KERN_WARNING
                        "ramc no standby function available" []] m1)
        else at91_pm_set_standby standby m1
    | Halted h m1 => Halted h m1
    end.
Proof.
  unfold at91_dt_ramc, ramc_nodes, bind at 1 2, get at 1.
  destruct (dt_ramc_loop _ 0 0 m) as [[idx standby] m1|h m1]; [|reflexivity].
  destruct (idx =? 0); [reflexivity|].
  destruct (standby =? 0); reflexivity.
Qed.

(** C6: with no matching memory-controller node the discovery panics.
    With matching nodes of which none declares a standby routine, the
    missing routine is not fatal: when the loop over the nodes ends, the
    function returns after one warning and registers no standby routine;
    it stops the system only where the loop itself does (mapping), never
    for the missing routine. *)
Theorem at91_dt_ramc_discovery (m : machine) :
  (ramc_nodes m = [] -> at91_dt_ramc m = Halted no_node_panic m) /\
  (ramc_nodes m <> [] -> Forall no_standby (ramc_nodes m) ->
   (forall r m1, dt_ramc_loop (ramc_nodes m) 0 0 m = Done r m1 ->
      at91_dt_ramc m =
        Done tt (append_events
                   [E_printk KERN_WARNING
                      "ramc no standby function available" []] m1) /\
      trace m1 = trace m /\
      cpuidle_platform_data m1 = cpuidle_platform_data m) /\
   (forall h m1, dt_ramc_loop (ramc_nodes m) 0 0 m = Halted h m1 ->
      at91_dt_ramc m = Halted h m1 /\ exists i, h = map_panic i \/ h = OutOfBounds i) /\
   (Forall maps_ok (ramc_nodes m) -> (List.length (ramc_nodes m) <= 2)%nat ->
    exists m', at91_dt_ramc m = Done tt m' /\
      events_since m m' =
        [E_printk KERN_WARNING "ramc no standby function available" []] /\
      cpuidle_platform_data m' = cpuidle_platform_data m)).
Proof.
  rewrite at91_dt_ramc_unfold. split.
  - intros ->. reflexivity.
  - intros Hnodes Hno.
    assert (Hdone : forall r m1,
               dt_ramc_loop (ramc_nodes m) 0 0 m = Done r m1 ->
               match dt_ramc_loop (ramc_nodes m) 0 0 m with
               | Done (idx, standby) m2 =>
                   if idx =? 0 then Halted no_node_panic m2
                   else if standby =? 0 then
                     Done tt (append_events
                                [E_printk KERN_WARNING
                                   "ramc no standby function available" []] m2)
                   else at91_pm_set_standby standby m2
               | Halted h m2 => Halted h m2
               end =
               Done tt (append_events
                          [E_printk KERN_WARNING
                             "ramc no standby function available" []] m1) /\
               trace m1 = trace m /\
               cpuidle_platform_data m1 = cpuidle_platform_data m).
    { intros [idx standby] m1 Hrun. rewrite Hrun.
      apply dt_ramc_loop_done in Hrun.
      destruct Hrun as (Hidx & Hstandby & _ & bases & ->).
      cbn [fst snd] in *. rewrite (Hstandby eq_refl Hno). cbn [Z.eqb].
      destruct (ramc_nodes m) as [|n rest]; [contradiction|].
      cbn [List.length] in Hidx.
      replace (idx =? 0) with false by lia.
      repeat split. }
    split; [exact Hdone|]. split.
    + intros h m1 Hrun. rewrite Hrun. split; [reflexivity|].
      exact (dt_ramc_loop_halted _ _ _ _ _ _ Hrun).
    + intros Hmaps Hlen.
      destruct (dt_ramc_loop (ramc_nodes m) 0 0 m) as [r m1|h m1] eqn:Hrun.
      * destruct (Hdone r m1 eq_refl) as (Hres & Htrace & Hpdata).
        eexists. split; [exact Hres|]. split; [|exact Hpdata].
        unfold events_since. cbn [trace append_events].
        rewrite Htrace, skipn_app, skipn_all, Nat.sub_diag. reflexivity.
      * destruct (dt_ramc_loop_completes (ramc_nodes m) 0 0 m Hmaps)
          as (r & m2 & Hrun'); [lia|lia|]. congruence.
Qed.

(** C10: when a matching node cannot be mapped, the discovery stops the
    system instead of going on; the stop is the panic that names the index
    of the first such node whenever that index is inside the two-entry
    array. *)
Theorem at91_dt_ramc_map_failure (m : machine) :
  Exists (fun n => of_iomap0 (fst n) = 0) (ramc_nodes m) ->
  (exists h m', at91_dt_ramc m = Halted h m') /\
  (forall pre n post,
      ramc_nodes m = pre ++ n :: post ->
      Forall maps_ok pre -> of_iomap0 (fst n) = 0 ->
      (List.length pre < 2)%nat ->
      stopped (at91_dt_ramc m) =
        Some (map_panic (Z.of_nat (List.length pre)))).
Proof.
  intros Hbad. rewrite at91_dt_ramc_unfold. split.
  - destruct (dt_ramc_loop_map_failure _ 0 0 m Hbad) as (h & m1 & Hrun).
    rewrite Hrun. now exists h, m1.
  - intros pre n post Hnodes Hpre Hn Hlen.
    pose proof (dt_ramc_loop_first_failure pre n post 0 0 m Hpre Hn) as Hstop.
    rewrite <- Hnodes in Hstop. cbn [Z.add] in Hstop.
    destruct (dt_ramc_loop (ramc_nodes m) 0 0 m) as [r m1|h m1].
    + cbn in Hstop. discriminate Hstop; lia.
    + cbn [stopped] in *. apply Hstop; lia.
Qed.

(** A store past the end of the array happens at an index from 2 on that
    some node reaches. *)
Lemma dt_ramc_loop_out_of_bounds (nodes : list (device_node * of_device_id)) :
  forall (idx standby : Z) (m : machine) (i : Z) (m1 : machine),
    dt_ramc_loop nodes idx standby m = Halted (OutOfBounds i) m1 ->
    0 <= idx -> 2 <= i < idx + Z.of_nat (List.length nodes).
Proof.
  induction nodes as [|[np id] rest IH]; intros idx standby m i m1 Hrun Hlo.
  - discriminate Hrun.
  - rewrite dt_ramc_loop_step in Hrun. cbn [List.length].
    destruct (Z.leb_spec 0 idx) as [_|Hneg]; [|lia].
    destruct (Z.ltb_spec idx 2) as [Hhi|Hhi]; cbn [andb] in Hrun.
    + cbv zeta in Hrun. destruct (of_iomap0 np =? 0); [discriminate Hrun|].
      apply IH in Hrun; lia.
    + injection Hrun as -> _. lia.
Qed.

Lemma dt_ramc_loop_stores (nodes : list (device_node * of_device_id))
  (m : machine) :
  nodes <> [] -> Forall maps_ok nodes -> (List.length nodes <= 2)%nat ->
  exists idx standby m1,
    dt_ramc_loop nodes 0 0 m = Done (idx, standby) m1 /\
    idx <> 0 /\
    firstn (List.length nodes) (at91_ramc_base m1) =
      map (fun n => of_iomap0 (fst n)) nodes /\
    List.length (at91_ramc_base m1) = 2%nat.
Proof.
  intros Hne Hmaps Hlen.
  destruct nodes as [|[n1 i1] [|[n2 i2] [|n3 rest]]];
    [contradiction| | |cbn in Hlen; lia].
  - inversion Hmaps as [|x l Hm1 _]; subst. unfold maps_ok in Hm1.
    cbn [fst] in Hm1. apply Z.eqb_neq in Hm1.
    rewrite dt_ramc_loop_step. cbn [Z.leb Z.ltb Z.compare andb Z.eqb].
    cbv zeta. rewrite Hm1. cbn [dt_ramc_loop]. unfold ret.
    do 3 eexists. split; [reflexivity|]. repeat split. discriminate.
  - inversion Hmaps as [|x l Hm1 Hrest]; subst.
    inversion Hrest as [|y l' Hm2 _]; subst.
    unfold maps_ok in Hm1, Hm2. cbn [fst] in Hm1, Hm2.
    apply Z.eqb_neq in Hm1, Hm2.
    rewrite dt_ramc_loop_step. cbn [Z.leb Z.ltb Z.compare andb Z.eqb].
    cbv zeta. rewrite Hm1.
    rewrite dt_ramc_loop_step. cbn [Z.leb Z.ltb Z.compare andb Z.eqb Z.add
                                     Pos.compare Pos.compare_cont].
    cbv zeta. rewrite Hm2. cbn [dt_ramc_loop]. unfold ret.
    do 3 eexists. split; [reflexivity|]. repeat split. discriminate.
Qed.

(** C7, as the code has it: with at most two matching nodes the discovery
    never stores outside the two-entry array, and when every node maps it
    has stored their base addresses at the indices 0 and 1 in discovery
    order.  The loop itself has no bound on the index. *)
Theorem at91_dt_ramc_store_bounds (m : machine) :
  (List.length (ramc_nodes m) <= 2)%nat ->
  (forall idx, stopped (at91_dt_ramc m) <> Some (OutOfBounds idx)) /\
  (ramc_nodes m <> [] -> Forall maps_ok (ramc_nodes m) ->
   exists m',
     at91_dt_ramc m = Done tt m' /\
     firstn (List.length (ramc_nodes m)) (at91_ramc_base m') =
       map (fun n => of_iomap0 (fst n)) (ramc_nodes m) /\
     List.length (at91_ramc_base m') = 2%nat).
Proof.
  intros Hlen. rewrite at91_dt_ramc_unfold. split.
  - intros i Hstop.
    destruct (dt_ramc_loop (ramc_nodes m) 0 0 m) as [[idx standby] m1|h m1]
      eqn:Hrun.
    + destruct (idx =? 0); [discriminate Hstop|].
      destruct (standby =? 0) eqn:Hs; [discriminate Hstop|].
      unfold at91_pm_set_standby in Hstop. rewrite Hs in Hstop.
      discriminate Hstop.
    + cbn [stopped] in Hstop. injection Hstop as ->.
      apply dt_ramc_loop_out_of_bounds in Hrun; lia.
  - intros Hne Hmaps.
    destruct (dt_ramc_loop_stores _ m Hne Hmaps Hlen)
      as (idx & standby & m1 & Hrun & Hidx & Hbases & Hsize).
    rewrite Hrun. apply Z.eqb_neq in Hidx. rewrite Hidx.
    destruct (standby =? 0) eqn:Hs.
    + eexists. split; [reflexivity|]. now split.
    + unfold at91_pm_set_standby. rewrite Hs. cbn [negb].
      eexists. split; [reflexivity|]. now split.
Qed.

End Proofs.

(** * The theorems at concrete inputs *)

(** A SAMA5D3 whose USB host clock is still enabled: the validator
    fails, and [at91_pm_enter] for PM_SUSPEND_MEM (3) goes to the
    cleanup. *)
Lemma at91_pm_enter_clock_failure_witness :
  returned (at91_pm_verify_clocks (hdr := Sample.headers)
              (Sample.sama5d3 Sample.usb_regs)) = Some 0 /\
  exists m' evs,
    at91_pm_verify_clocks (hdr := Sample.headers)
      (Sample.sama5d3 Sample.usb_regs) =
      Done 0 (append_events evs (Sample.sama5d3 Sample.usb_regs)) /\
    at91_pm_enter (hdr := Sample.headers) 3 (Sample.sama5d3 Sample.usb_regs) =
      Done 0 m' /\
    events_since (Sample.sama5d3 Sample.usb_regs) m' =
      E_pinctrl_gpio_suspend :: evs ++ [E_pinctrl_gpio_resume] /\
    count_event is_suspend_sram_fn
      (events_since (Sample.sama5d3 Sample.usb_regs) m') = 0%nat /\
    count_event is_flush_cache_all
      (events_since (Sample.sama5d3 Sample.usb_regs) m') = 0%nat /\
    count_event is_outer_disable
      (events_since (Sample.sama5d3 Sample.usb_regs) m') = 0%nat /\
    target_state m' = 0.
Proof.
  split; [vm_compute; reflexivity|].
  apply (@at91_pm_enter_clock_failure Sample.headers
           (Sample.sama5d3 Sample.usb_regs)).
  vm_compute; reflexivity.
Defined.

(** The SAMA5D3 profile (kind DDRSDR, device id 49, not a SAMA5D4) with
    the sample layout: the flag is bit 4, outside every other field.  The
    word for PM_SUSPEND_MEM is 0x3112: kind 2 in the low four bits, the
    flag, the device id from bit 8, and no variant flag. *)
Lemma at91_pm_suspend_mode_word_witness :
  (at91_suspend_sram_fn (Sample.sama5d3 Sample.quiet_regs) <> 0 /\
   deep_flag (hdr := Sample.headers) <> 0 /\
   Z.land (u32 (memctrl (at91_pm_data (Sample.sama5d3 Sample.quiet_regs))))
          (deep_flag (hdr := Sample.headers)) = 0 /\
   Z.land (u32 (AT91_PM_DDRC_PID (Headers := Sample.headers)
                  (ddrc_pid (at91_pm_data (Sample.sama5d3 Sample.quiet_regs)))))
          (deep_flag (hdr := Sample.headers)) = 0 /\
   Z.land (u32 (AT91_PM_IS_SAMA5D4 (Headers := Sample.headers)
                  (AT91_PM_SAMA5D4_BIT (Headers := Sample.headers))))
          (deep_flag (hdr := Sample.headers)) = 0) /\
  exists w,
    at91_pm_suspend (hdr := Sample.headers) 3 (Sample.sama5d3 Sample.quiet_regs) =
      Done tt (append_events
                 [ E_flush_cache_all; E_outer_disable;
                   E_suspend_sram_fn
                     (at91_suspend_sram_fn (Sample.sama5d3 Sample.quiet_regs))
                     (at91_pmc_base (hw (Sample.sama5d3 Sample.quiet_regs)))
                     (nth 0 (at91_ramc_base (Sample.sama5d3 Sample.quiet_regs)) 0)
                     (nth 1 (at91_ramc_base (Sample.sama5d3 Sample.quiet_regs)) 0)
                     w;
                   E_outer_resume ] (Sample.sama5d3 Sample.quiet_regs)) /\
    w = 0x3112 /\
    (has_bits w (deep_flag (hdr := Sample.headers)) <-> 3 = 3) /\
    Z.land w 0x0f = 2 /\
    Z.land w 0xff00 = Z.shiftl 49 8 /\
    (has_bits w (Z.shiftl 1 16) <-> false = true).
Proof.
  split.
  - repeat split; try (vm_compute; discriminate); vm_compute; reflexivity.
  - destruct (@at91_pm_suspend_mode_word Sample.headers 3
                (Sample.sama5d3 Sample.quiet_regs))
      as (w & Hrun & Hw & Hdeep & _ & _ & _ & Hkind & Hpid & Hvar).
    + vm_compute; discriminate.
    + vm_compute; discriminate.
    + vm_compute; reflexivity.
    + vm_compute; reflexivity.
    + vm_compute; reflexivity.
    + exists w. split; [exact Hrun|].
      split; [rewrite Hw; vm_compute; reflexivity|].
      split; [exact Hdeep|].
      split; [rewrite (Hkind 0x0f); vm_compute; reflexivity|].
      split; [rewrite (Hpid 0xff00); vm_compute; reflexivity|].
      apply Hvar; [vm_compute; discriminate|vm_compute; reflexivity
                  |vm_compute; reflexivity].
Defined.

(** An unknown state (7) on the SAMA5D3: 0 is returned after the
    cleanup. *)
Lemma at91_pm_enter_cleanup_witness :
  at91_suspend_sram_fn (Sample.sama5d3 Sample.quiet_regs) <> 0 /\
  exists m' body,
    at91_pm_enter (hdr := Sample.headers) 7 (Sample.sama5d3 Sample.quiet_regs) =
      Done 0 m' /\
    target_state m' = 0 /\
    events_since (Sample.sama5d3 Sample.quiet_regs) m' =
      E_pinctrl_gpio_suspend :: body ++ [E_pinctrl_gpio_resume] /\
    count_event is_gpio_suspend
      (events_since (Sample.sama5d3 Sample.quiet_regs) m') = 1%nat /\
    count_event is_gpio_resume
      (events_since (Sample.sama5d3 Sample.quiet_regs) m') = 1%nat.
Proof.
  split; [vm_compute; discriminate|].
  apply (@at91_pm_enter_cleanup Sample.headers 7
           (Sample.sama5d3 Sample.quiet_regs)).
  vm_compute; discriminate.
Defined.

(** [begin] with PM_SUSPEND_MEM (3) on the SAMA5D3, then three calls that
    leave the target state alone. *)
Lemma slow_clock_query_follows_begin_witness :
  (PM_SUSPEND_ON (Headers := Sample.headers) <>
   PM_SUSPEND_MEM (Headers := Sample.headers) /\
   at91_suspend_sram_fn (Sample.sama5d3 Sample.quiet_regs) <> 0) /\
  exists m1 m2,
    at91_pm_begin 3 (Sample.sama5d3 Sample.quiet_regs) = Done 0 m1 /\
    returned (at91_suspend_entering_slow_clock (hdr := Sample.headers) m1) =
      Some 1 /\
    run_queries (hdr := Sample.headers)
      [QuerySlowClock; QueryVerifyClocks; QueryValid 3] m1 = Done tt m2 /\
    returned (at91_suspend_entering_slow_clock (hdr := Sample.headers) m2) =
      Some 1 /\
    (forall s', exists m3,
        at91_pm_enter (hdr := Sample.headers) s' m2 = Done 0 m3 /\
        returned (at91_suspend_entering_slow_clock (hdr := Sample.headers) m3) =
          Some 0) /\
    (exists m3,
        at91_pm_end (hdr := Sample.headers) m2 = Done tt m3 /\
        returned (at91_suspend_entering_slow_clock (hdr := Sample.headers) m3) =
          Some 0).
Proof.
  split; [split; vm_compute; discriminate|].
  apply (@slow_clock_query_follows_begin Sample.headers 3
           [QuerySlowClock; QueryVerifyClocks; QueryValid 3]
           (Sample.sama5d3 Sample.quiet_regs)).
  - vm_compute; discriminate.
  - vm_compute; discriminate.
Defined.

(** A board whose only SRAM pool is exhausted: the pointer stays null and
    nothing is registered. *)
Lemma at91_pm_sram_init_failure_witness :
  exists m1 m2,
    at91_pm_sram_init (hdr := Sample.headers)
      (Sample.boot (Sample.board_of Sample.quiet_regs
                      [Sample.ddramc_node 0xffffea00;
                       Sample.sram_node_exhausted])) = Done tt m1 /\
    at91_pm_init (hdr := Sample.headers)
      (Sample.boot (Sample.board_of Sample.quiet_regs
                      [Sample.ddramc_node 0xffffea00;
                       Sample.sram_node_exhausted])) = Done tt m2 /\
    at91_suspend_sram_fn m1 = 0 /\
    at91_suspend_sram_fn m2 = 0 /\
    count_event is_suspend_set_ops (trace m2) = 0%nat.
Proof.
  destruct (@at91_pm_sram_init_failure Sample.headers
              (Sample.boot (Sample.board_of Sample.quiet_regs
                              [Sample.ddramc_node 0xffffea00;
                               Sample.sram_node_exhausted])))
    as (m1 & m2 & Hsram & Hinit & Hfail & Hnull).
  assert (Hm1 : at91_suspend_sram_fn m1 = 0).
  { apply Hfail; [reflexivity|].
    eapply (alloc_fails (hdr := Sample.headers)); reflexivity. }
  exists m1, m2. repeat split; try assumption; apply Hnull; exact Hm1.
Defined.

(** Headers that declare no standby routine, and the SAMA5D3 description
    data: one warning, no stop. *)
Lemma at91_dt_ramc_discovery_witness :
  at91_dt_ramc (hdr := Sample.headers)
    (Sample.boot (Sample.board_of Sample.quiet_regs [Sample.uart_node])) =
    Halted no_node_panic
      (Sample.boot (Sample.board_of Sample.quiet_regs [Sample.uart_node])) /\
  exists m',
    at91_dt_ramc (hdr := Sample.headers_no_standby)
      (Sample.boot (Sample.board_of Sample.quiet_regs Sample.sama5d3_dt)) =
      Done tt m' /\
    events_since
      (Sample.boot (Sample.board_of Sample.quiet_regs Sample.sama5d3_dt)) m' =
      [E_printk KERN_WARNING "ramc no standby function available" []] /\
    cpuidle_platform_data m' = 0.
Proof.
  split.
  - destruct (@at91_dt_ramc_discovery Sample.headers
                (Sample.boot (Sample.board_of Sample.quiet_regs
                                [Sample.uart_node]))) as [Hnone _].
    apply Hnone. reflexivity.
  - destruct (@at91_dt_ramc_discovery Sample.headers_no_standby
                (Sample.boot (Sample.board_of Sample.quiet_regs
                                Sample.sama5d3_dt))) as [_ Hsome].
    apply Hsome.
    + vm_compute; discriminate.
    + vm_compute. repeat constructor.
    + vm_compute. repeat constructor; discriminate.
    + vm_compute. repeat constructor.
Defined.

(** Two memory-controller nodes, the second of which cannot be mapped:
    the panic names index 1. *)
Lemma at91_dt_ramc_map_failure_witness :
  Exists (fun n => of_iomap0 (fst n) = 0)
    (ramc_nodes (hdr := Sample.headers)
       (Sample.boot (Sample.board_of Sample.quiet_regs
                       [Sample.ddramc_node 0xffffe800; Sample.ddramc_node 0]))) /\
  stopped (at91_dt_ramc (hdr := Sample.headers)
             (Sample.boot (Sample.board_of Sample.quiet_regs
                             [Sample.ddramc_node 0xffffe800;
                              Sample.ddramc_node 0]))) =
    Some (map_panic 1).
Proof.
  assert (Hbad : Exists (fun n => of_iomap0 (fst n) = 0)
            (ramc_nodes (hdr := Sample.headers)
               (Sample.boot (Sample.board_of Sample.quiet_regs
                   [Sample.ddramc_node 0xffffe800; Sample.ddramc_node 0])))).
  { apply Exists_cons_tl, Exists_cons_hd. reflexivity. }
  split; [exact Hbad|].
  destruct (@at91_dt_ramc_map_failure Sample.headers _ Hbad) as [_ Hpanic].
  apply (Hpanic [(Sample.ddramc_node 0xffffe800,
                  {| id_compatible := "atmel,sama5d3-ddramc";
                     id_data := 0xc0010080 |})]
                (Sample.ddramc_node 0,
                 {| id_compatible := "atmel,sama5d3-ddramc";
                    id_data := 0xc0010080 |}) []).
  - reflexivity.
  - repeat constructor. discriminate.
  - reflexivity.
  - cbn. lia.
Defined.

(** The SAMA5D3 description data has one memory-controller node: its
    base address is stored at index 0. *)
Lemma at91_dt_ramc_store_bounds_witness :
  (List.length (ramc_nodes (hdr := Sample.headers)
      (Sample.boot (Sample.board_of Sample.quiet_regs Sample.sama5d3_dt)))
   <= 2)%nat /\
  (forall idx,
      stopped (at91_dt_ramc (hdr := Sample.headers)
                 (Sample.boot (Sample.board_of Sample.quiet_regs
                                 Sample.sama5d3_dt))) <>
        Some (OutOfBounds idx)) /\
  exists m',
    at91_dt_ramc (hdr := Sample.headers)
      (Sample.boot (Sample.board_of Sample.quiet_regs Sample.sama5d3_dt)) =
      Done tt m' /\
    firstn 1 (at91_ramc_base m') = [0xffffea00].
Proof.
  assert (Hlen : (List.length (ramc_nodes (hdr := Sample.headers)
            (Sample.boot (Sample.board_of Sample.quiet_regs Sample.sama5d3_dt)))
          <= 2)%nat).
  { vm_compute. repeat constructor. }
  split; [exact Hlen|].
  destruct (@at91_dt_ramc_store_bounds Sample.headers _ Hlen) as [Hin Hstore].
  split; [exact Hin|].
  destruct Hstore as (m' & Hrun & Hbases & _).
  - vm_compute; discriminate.
  - vm_compute. repeat constructor; discriminate.
  - exists m'. split; [exact Hrun|exact Hbases].
Defined.

(** C7 as stated fails: description data with three memory-controller
    nodes, all of which map, makes the discovery store at index 2 of the
    two-entry array. *)
Lemma at91_dt_ramc_three_nodes_out_of_bounds :
  List.length (ramc_nodes (hdr := Sample.headers)
     (Sample.boot (Sample.board_of Sample.quiet_regs Sample.three_ramc_dt)))
    = 3%nat /\
  stopped (at91_dt_ramc (hdr := Sample.headers)
             (Sample.boot (Sample.board_of Sample.quiet_regs
                             Sample.three_ramc_dt))) =
    Some (OutOfBounds 2).
Proof.
  split; vm_compute; reflexivity.
Qed.

(** ** The scenarios of the specification, evaluated *)

(** Deep suspend on the SAMA5D3 with all four clock preconditions met: one
    call of the relocated routine, with the bases found at boot and the
    mode word kind 2, deep flag (bit 4), device id 49 (from bit 8). *)
Example sama5d3_deep_suspend :
  events_since (Sample.sama5d3 Sample.quiet_regs)
    (final_state (at91_pm_enter (hdr := Sample.headers) 3
                    (Sample.sama5d3 Sample.quiet_regs))) =
    [ E_pinctrl_gpio_suspend;
      E_pmc_read 0x08; E_pmc_read 0x1c; E_pmc_read 0x68;
      E_flush_cache_all; E_outer_disable;
      E_suspend_sram_fn 0xe0300000 0xfffffc00 0xffffea00 0
        (Z.lor 2 (Z.lor 0x10 (Z.shiftl 49 8)));
      E_outer_resume;
      E_pinctrl_gpio_resume ].
Proof. vm_compute. reflexivity. Qed.

(** The same with the USB host clock enabled: the routine is not called,
    the GPIO configuration is resumed, the target state is reset. *)
Example sama5d3_usb_active :
  events_since (Sample.sama5d3 Sample.usb_regs)
    (final_state (at91_pm_enter (hdr := Sample.headers) 3
                    (Sample.sama5d3 Sample.usb_regs))) =
    [ E_pinctrl_gpio_suspend;
      E_pmc_read 0x08;
      E_printk KERN_ERR "AT91: PM - Suspend-to-RAM with USB still active" [];
      E_pinctrl_gpio_resume ] /\
  target_state
    (final_state (at91_pm_enter (hdr := Sample.headers) 3
                    (Sample.sama5d3 Sample.usb_regs))) = 0.
Proof. split; vm_compute; reflexivity. Qed.

(** Standby on a board without SRAM would call through the null
    pointer; [at91_pm_init] has not registered the operations there. *)
Example no_sram_not_registered :
  stopped (at91_pm_enter (hdr := Sample.headers) 2
             (Sample.boot (Sample.board_of Sample.quiet_regs
                             [Sample.ddramc_node 0xffffea00]))) =
    Some NullCall /\
  count_event is_suspend_set_ops
    (trace (final_state
              (sam5d3_pm_init (hdr := Sample.headers)
                 (Sample.boot (Sample.board_of Sample.quiet_regs
                                 [Sample.ddramc_node 0xffffea00]))))) = 0%nat.
Proof. split; vm_compute; reflexivity. Qed.

(** * The rest of the file *)

Lemma filter_none (p : event -> bool) (l : list event) :
  Forall (fun e => p e = false) l -> filter p l = [].
Proof.
  intros Hl. induction Hl as [|e l He _ IH]; cbn; [reflexivity|].
  now rewrite He.
Qed.

Lemma filter_all (p : event -> bool) (l : list event) :
  Forall (fun e => p e = true) l -> filter p l = l.
Proof.
  intros Hl. induction Hl as [|e l He _ IH]; cbn; [reflexivity|].
  now rewrite He, IH.
Qed.

Lemma reads_forall (p : event -> bool) (b : bool) (fields : list Z) :
  (forall f, p (E_pmc_read f) = b) ->
  Forall (fun e => p e = b) (map E_pmc_read fields).
Proof.
  intros Hp. apply Forall_forall. intros e He. apply in_map_iff in He.
  destruct He as (f & <- & _). apply Hp.
Qed.

Lemma machine_eta (m : machine) :
  set_target_state (target_state m) (append_events [] m) = m.
Proof.
  destruct m. unfold set_target_state, append_events. cbn.
  now rewrite app_nil_r.
Qed.

Lemma evolve_twice (t1 t2 : Z) (e1 e2 : list event) (m : machine) :
  set_target_state t2
    (append_events e2 (set_target_state t1 (append_events e1 m))) =
  set_target_state t2 (append_events (e1 ++ e2) m).
Proof.
  unfold set_target_state, append_events. cbn. now rewrite app_assoc.
Qed.

Section Coverage.
Context {hdr : Headers}.

Lemma violation_log_forall (p : event -> bool) (b : bool)
  (v : option violation) :
  (forall fmt args, p (E_printk KERN_ERR fmt args) = b) ->
  Forall (fun e => p e = b) (violation_log v).
Proof.
  intros Hp. destruct v as [[| | |]|]; cbn; repeat constructor; apply Hp.
Qed.

(** The events of the transition that are not the validator's. *)
Lemma transition_events_filter (p : event -> bool) (state : Z) (m : machine) :
  (forall f, p (E_pmc_read f) = false) ->
  (forall fmt args, p (E_printk KERN_ERR fmt args) = false) ->
  filter p (transition_events m state) =
    if state =? PM_SUSPEND_MEM then
      match first_violation m with
      | Some _ => []
      | None => filter p (suspend_events m state)
      end
    else if state =? PM_SUSPEND_STANDBY then filter p (suspend_events m state)
    else if state =? PM_SUSPEND_ON then filter p [E_cpu_do_idle]
    else filter p [E_printk KERN_DEBUG "AT91: PM - bogus suspend state %d"
                     [ArgInt state]].
Proof.
  intros Hread Hlog. unfold transition_events.
  destruct (state =? PM_SUSPEND_MEM).
  - rewrite filter_app, (filter_none p _ (reads_forall p false _ Hread)).
    destruct (first_violation m) as [v|]; [|reflexivity].
    apply (filter_none p _ (violation_log_forall p false (Some v) Hlog)).
  - destruct (state =? PM_SUSPEND_STANDBY); [reflexivity|].
    destruct (state =? PM_SUSPEND_ON); reflexivity.
Qed.

Lemma reaches_suspend_mem (m : machine) (state : Z) :
  PM_SUSPEND_STANDBY <> PM_SUSPEND_MEM ->
  state = PM_SUSPEND_MEM ->
  reaches_suspend m state <-> first_violation m = None.
Proof.
  intros Hdistinct ->. unfold reaches_suspend.
  rewrite (first_violation_none m). split; [|tauto].
  intros [[_ Hok]|Hsb]; [exact Hok|congruence].
Qed.

(** X1: in one call of [at91_pm_enter] the cache operations and the call
    of the relocated routine are all or nothing.  When the call reaches
    the suspend path (PM_SUSPEND_MEM with valid clocks, or
    PM_SUSPEND_STANDBY) they are exactly: flush all caches, disable the
    outer cache, call the routine once with the controller bases 0 and 1
    and the mode word of the state, resume the outer cache.  Otherwise
    there is none of them. *)
Theorem at91_pm_enter_suspend_sequence (state : Z) (m : machine) :
  at91_suspend_sram_fn m <> 0 ->
  PM_SUSPEND_STANDBY <> PM_SUSPEND_MEM ->
  exists m',
    at91_pm_enter state m = Done 0 m' /\
    (reaches_suspend m state ->
     filter is_suspend_event (events_since m m') =
       [ E_flush_cache_all; E_outer_disable;
         E_suspend_sram_fn (at91_suspend_sram_fn m) (at91_pmc_base (hw m))
           (nth 0 (at91_ramc_base m) 0) (nth 1 (at91_ramc_base m) 0)
           (pm_mode_word (at91_pm_data m) state);
         E_outer_resume ]) /\
    (~ reaches_suspend m state ->
     filter is_suspend_event (events_since m m') = []).
Proof.
  intros Hfn Hdistinct. eexists.
  split; [apply at91_pm_enter_run; now left|].
  rewrite events_since_target.
  change (E_pinctrl_gpio_suspend :: ?l) with ([E_pinctrl_gpio_suspend] ++ l).
  rewrite !filter_app.
  rewrite (transition_events_filter is_suspend_event state m)
    by reflexivity.
  cbn [filter is_suspend_event app]. rewrite app_nil_r.
  destruct (Z.eqb_spec state PM_SUSPEND_MEM) as [Hmem|Hmem].
  - pose proof (reaches_suspend_mem m state Hdistinct Hmem) as Hreach.
    destruct (first_violation m) as [v|].
    + split; [|reflexivity]. intros Hr. apply Hreach in Hr. discriminate Hr.
    + split; [reflexivity|]. intros Hr. destruct Hr. now apply Hreach.
  - destruct (Z.eqb_spec state PM_SUSPEND_STANDBY) as [Hsb|Hsb].
    + split; [reflexivity|]. intros Hr. destruct Hr. now right.
    + assert (Hno : ~ reaches_suspend m state).
      { intros [[Hm _]|Hs]; contradiction. }
      split; [intros Hr; contradiction|].
      destruct (state =? PM_SUSPEND_ON); reflexivity.
Qed.

(** X2: [at91_pm_enter] consults the clock validator for PM_SUSPEND_MEM
    only: for every other state, standby included, no clock-controller
    register is read and no validation error is logged, whatever the
    clocks are. *)
Theorem at91_pm_enter_validator_use (state : Z) (m : machine) :
  at91_suspend_sram_fn m <> 0 ->
  exists m',
    at91_pm_enter state m = Done 0 m' /\
    filter is_clock_event (events_since m m') =
      if state =? PM_SUSPEND_MEM then
        map E_pmc_read (registers_inspected m) ++
        violation_log (first_violation m)
      else [].
Proof.
  intros Hfn. eexists.
  split; [apply at91_pm_enter_run; now left|].
  rewrite events_since_target.
  change (E_pinctrl_gpio_suspend :: ?l) with ([E_pinctrl_gpio_suspend] ++ l).
  rewrite !filter_app. cbn [filter is_clock_event app]. rewrite app_nil_r.
  unfold transition_events.
  destruct (state =? PM_SUSPEND_MEM).
  - rewrite filter_app,
      (filter_all is_clock_event _ (reads_forall is_clock_event true _
                                      ltac:(reflexivity))).
    f_equal. destruct (first_violation m) as [v|].
    + apply filter_all, violation_log_forall. reflexivity.
    + reflexivity.
  - destruct (state =? PM_SUSPEND_STANDBY); [reflexivity|].
    destruct (state =? PM_SUSPEND_ON); reflexivity.
Qed.

(** X3: a state that is neither PM_SUSPEND_MEM nor PM_SUSPEND_STANDBY
    needs no relocated routine: even with a null routine pointer
    [at91_pm_enter] returns 0, having only idled the CPU (PM_SUSPEND_ON)
    or logged the state (any other value) between the GPIO suspend and
    resume. *)
Theorem at91_pm_enter_shallow (state : Z) (m : machine) :
  state <> PM_SUSPEND_MEM -> state <> PM_SUSPEND_STANDBY ->
  at91_pm_enter state m =
    Done 0
      (set_target_state PM_SUSPEND_ON
         (append_events
            [ E_pinctrl_gpio_suspend;
              if state =? PM_SUSPEND_ON then E_cpu_do_idle
              else E_printk KERN_DEBUG "AT91: PM - bogus suspend state %d"
                     [ArgInt state];
              E_pinctrl_gpio_resume ] m)).
Proof.
  intros Hmem Hsb.
  rewrite (at91_pm_enter_run state m) by (right; right; now split).
  unfold transition_events.
  apply Z.eqb_neq in Hmem, Hsb. rewrite Hmem, Hsb.
  destruct (state =? PM_SUSPEND_ON); reflexivity.
Qed.

(** X4: [at91_pm_enter] logs the bogus-state message exactly for the
    states that [at91_pm_valid_state] rejects. *)
Theorem at91_pm_enter_bogus_iff_invalid (state : Z) (m : machine) :
  at91_suspend_sram_fn m <> 0 ->
  exists m',
    at91_pm_enter state m = Done 0 m' /\
    filter is_debug_printk (events_since m m') =
      if at91_pm_valid_state state =? 0 then
        [E_printk KERN_DEBUG "AT91: PM - bogus suspend state %d"
           [ArgInt state]]
      else [].
Proof.
  intros Hfn. eexists.
  split; [apply at91_pm_enter_run; now left|].
  rewrite events_since_target.
  change (E_pinctrl_gpio_suspend :: ?l) with ([E_pinctrl_gpio_suspend] ++ l).
  rewrite !filter_app.
  rewrite (transition_events_filter is_debug_printk state m) by reflexivity.
  cbn [filter is_debug_printk app]. rewrite app_nil_r.
  unfold at91_pm_valid_state.
  destruct (state =? PM_SUSPEND_MEM).
  - destruct (first_violation m);
      destruct (state =? PM_SUSPEND_ON), (state =? PM_SUSPEND_STANDBY);
      reflexivity.
  - destruct (state =? PM_SUSPEND_STANDBY);
      destruct (state =? PM_SUSPEND_ON); reflexivity.
Qed.

(** ** Sequences of calls *)

Lemma transition_events_balanced (state : Z) (m : machine) :
  count_event is_outer_disable (transition_events m state) =
  count_event is_outer_resume (transition_events m state).
Proof.
  unfold count_event.
  rewrite !transition_events_filter by reflexivity.
  destruct (state =? PM_SUSPEND_MEM); [destruct (first_violation m)|];
    try reflexivity.
  destruct (state =? PM_SUSPEND_STANDBY); [reflexivity|].
  destruct (state =? PM_SUSPEND_ON); reflexivity.
Qed.

Lemma transition_events_gpio (state : Z) (m : machine) :
  count_event is_gpio_suspend (transition_events m state) = 0%nat /\
  count_event is_gpio_resume (transition_events m state) = 0%nat.
Proof.
  pose proof (transition_events_no_gpio state m) as Hbody.
  split; apply count_event_zero; (eapply Forall_impl; [|exact Hbody]);
    intros e [Hs Hr]; assumption.
Qed.

(** One call: the state it leaves and what it adds to the trace. *)
Lemma run_call_run (c : pm_call) (m : machine) :
  at91_suspend_sram_fn m <> 0 ->
  exists r evs,
    run_call c m =
      Done r (set_target_state (target_after [c] (target_state m))
                (append_events evs m)) /\
    count_event is_gpio_suspend evs = (if is_enter c then 1 else 0)%nat /\
    count_event is_gpio_resume evs = (if is_enter c then 1 else 0)%nat /\
    count_event is_outer_disable evs = count_event is_outer_resume evs.
Proof.
  intros Hfn. destruct c as [state|state|state| |]; cbn [run_call target_after].
  - exists (at91_pm_valid_state state), []. unfold ret.
    rewrite machine_eta. repeat split.
  - exists 0, []. unfold at91_pm_begin, bind, modify, ret.
    unfold set_target_state, append_events. cbn. rewrite app_nil_r.
    repeat split.
  - exists 0. eexists. split; [apply at91_pm_enter_run; now left|].
    change (E_pinctrl_gpio_suspend :: ?l) with ([E_pinctrl_gpio_suspend] ++ l).
    rewrite !count_event_app.
    destruct (transition_events_gpio state m) as [-> ->].
    rewrite (transition_events_balanced state m). repeat split.
  - exists 0, []. unfold at91_pm_end, bind, modify, ret.
    unfold set_target_state, append_events. cbn. rewrite app_nil_r.
    repeat split.
  - exists (if target_state m =? PM_SUSPEND_MEM then 1 else 0), [].
    rewrite (delivers_run _ _ _ _ (slow_clock_query_delivers m)).
    rewrite machine_eta, append_events_nil. repeat split.
Qed.

Lemma run_calls_run (cs : list pm_call) :
  forall m : machine,
    at91_suspend_sram_fn m <> 0 ->
    exists evs,
      run_calls cs m =
        Done tt (set_target_state (target_after cs (target_state m))
                   (append_events evs m)) /\
      count_event is_gpio_suspend evs = List.length (filter is_enter cs) /\
      count_event is_gpio_resume evs = List.length (filter is_enter cs) /\
      count_event is_outer_disable evs = count_event is_outer_resume evs.
Proof.
  induction cs as [|c rest IH]; intros m Hfn.
  - exists []. cbn [run_calls target_after]. unfold ret.
    rewrite machine_eta. repeat split.
  - destruct (run_call_run c m Hfn) as (r & e1 & Hc & Hs1 & Hr1 & Hb1).
    cbn [run_calls]. unfold bind. rewrite Hc.
    destruct (IH (set_target_state (target_after [c] (target_state m))
                    (append_events e1 m)) Hfn)
      as (e2 & Hrest & Hs2 & Hr2 & Hb2).
    rewrite Hrest, evolve_twice. exists (e1 ++ e2).
    rewrite !count_event_app, Hs1, Hr1, Hs2, Hr2, Hb1, Hb2.
    cbn [target_state set_target_state filter].
    split; [|destruct (is_enter c); cbn [List.length]; repeat split; lia].
    do 2 f_equal. destruct c; reflexivity.
Qed.

(** X5: no call of the framework or of a driver, in any order and with
    any argument, changes what initialization has set up: the profile,
    the controller base addresses, the routine pointer, the platform data
    and the board are the same afterwards, and the trace is only
    extended. *)
Theorem pm_calls_keep_statics (cs : list pm_call) (m : machine) :
  at91_suspend_sram_fn m <> 0 ->
  exists m', run_calls cs m = Done tt m' /\ keeps_statics m m'.
Proof.
  intros Hfn. destruct (run_calls_run cs m Hfn) as (evs & Hrun & _).
  eexists. split; [exact Hrun|]. unfold keeps_statics.
  cbn [hw at91_pm_data at91_ramc_base at91_suspend_sram_fn
       cpuidle_platform_data trace set_target_state append_events].
  repeat split. now exists evs.
Qed.

(** X6: the target state after a sequence of calls is the argument of
    the last [begin] that no [enter] or [end] has followed, and
    PM_SUSPEND_ON once an [enter] or [end] has run after the last
    [begin]; the exported query answers from it. *)
Theorem pm_calls_target_state (cs : list pm_call) (m : machine) :
  at91_suspend_sram_fn m <> 0 ->
  exists m',
    run_calls cs m = Done tt m' /\
    target_state m' = target_after cs (target_state m) /\
    returned (at91_suspend_entering_slow_clock m') =
      Some (if target_after cs (target_state m) =? PM_SUSPEND_MEM
            then 1 else 0).
Proof.
  intros Hfn. destruct (run_calls_run cs m Hfn) as (evs & Hrun & _).
  eexists. split; [exact Hrun|]. split; [reflexivity|].
  rewrite (delivers_run _ _ _ _ (slow_clock_query_delivers _)). reflexivity.
Qed.

(** X7: over any sequence of calls the GPIO configuration is suspended
    and resumed once per [enter], and the outer cache is resumed as often
    as it is disabled. *)
Theorem pm_calls_balanced (cs : list pm_call) (m : machine) :
  at91_suspend_sram_fn m <> 0 ->
  exists m',
    run_calls cs m = Done tt m' /\
    count_event is_gpio_suspend (events_since m m') =
      List.length (filter is_enter cs) /\
    count_event is_gpio_resume (events_since m m') =
      List.length (filter is_enter cs) /\
    count_event is_outer_disable (events_since m m') =
      count_event is_outer_resume (events_since m m').
Proof.
  intros Hfn.
  destruct (run_calls_run cs m Hfn) as (evs & Hrun & Hs & Hr & Hb).
  eexists. split; [exact Hrun|]. rewrite events_since_target.
  repeat split; assumption.
Qed.

(** ** The mode word, continued *)

Lemma u32_range (x : Z) : 0 <= u32 x < 2 ^ 32.
Proof. unfold u32. apply Z.mod_pos_bound. lia. Qed.

(** X8: the mode word is a 32-bit value; it is the same for every state
    other than PM_SUSPEND_MEM, and the one of PM_SUSPEND_MEM is that word
    with the deep-clock-gating flag or-ed in: suspend-to-RAM is standby
    plus slow clock. *)
Theorem pm_mode_word_deep_flag (d : pm_data) (state state' : Z) :
  state <> PM_SUSPEND_MEM -> state' <> PM_SUSPEND_MEM ->
  0 <= pm_mode_word d state < 2 ^ 32 /\
  0 <= pm_mode_word d PM_SUSPEND_MEM < 2 ^ 32 /\
  pm_mode_word d state = pm_mode_word d state' /\
  pm_mode_word d PM_SUSPEND_MEM = Z.lor (pm_mode_word d state) deep_flag.
Proof.
  intros Hs Hs'. split; [apply u32_range|]. split; [apply u32_range|].
  rewrite !pm_mode_word_fields. apply Z.eqb_neq in Hs, Hs'.
  rewrite Hs, Hs', Z.eqb_refl, Z.lor_0_r. split; [reflexivity|].
  apply Z.bits_inj'. intros n _. rewrite !Z.lor_spec.
  destruct (Z.testbit (u32 (memctrl d)) n), (Z.testbit deep_flag n),
    (Z.testbit (u32 (AT91_PM_DDRC_PID (ddrc_pid d))) n); cbn;
    rewrite ?orb_true_r, ?orb_false_r; reflexivity.
Qed.

(** ** The clock validator, continued *)

Lemma pck_registers_length (m : machine) (pcks : list Z) :
  (List.length (pck_registers m pcks) <= List.length pcks)%nat.
Proof.
  induction pcks as [|i rest IH]; cbn [pck_registers List.length]; [lia|].
  destruct (pck_enabled m i); [|lia].
  destruct (pck_source m i =? AT91_PMC_CSS_SLOW); cbn [List.length]; lia.
Qed.

Lemma registers_inspected_bounds (m : machine) :
  (1 <= List.length (registers_inspected m) <= 7)%nat.
Proof.
  pose proof (pck_registers_length m [0; 1; 2; 3]) as Hpck.
  cbn [List.length] in Hpck. unfold registers_inspected.
  destruct (first_violation m) as [[| | |]|];
    cbn [List.length]; rewrite ?length_app; cbn [List.length]; lia.
Qed.

(** X9: the clock validator only looks: it always returns, changes
    nothing but the trace, reads the status register first and at most
    seven registers in all, logs exactly one error when it returns 0 and
    none when it returns 1; and its answer depends on the clock registers
    and the profile's mask only. *)
Theorem at91_pm_verify_clocks_read_only (m : machine) :
  exists r evs,
    at91_pm_verify_clocks m = Done r (append_events evs m) /\
    (r = 0 \/ r = 1) /\
    hd_error evs = Some (E_pmc_read AT91_PMC_SCSR) /\
    (1 <= count_event is_pmc_read evs <= 7)%nat /\
    count_event is_printk evs = (if (r =? 0)%Z then 1 else 0)%nat /\
    (forall m2,
        pmc_regs (hw m2) = pmc_regs (hw m) ->
        uhp_udp_mask (at91_pm_data m2) = uhp_udp_mask (at91_pm_data m) ->
        returned (at91_pm_verify_clocks m2) = Some r).
Proof.
  do 2 eexists.
  split; [exact (delivers_run _ _ _ _ (at91_pm_verify_clocks_delivers m))|].
  split; [destruct (first_violation m); [now left|now right]|].
  split; [reflexivity|].
  rewrite !count_event_app.
  assert (Hreads : count_event is_pmc_read
                     (map E_pmc_read (registers_inspected m)) =
                   List.length (registers_inspected m)).
  { unfold count_event.
    rewrite (filter_all is_pmc_read _
               (reads_forall is_pmc_read true _ ltac:(reflexivity))).
    apply length_map. }
  rewrite Hreads.
  rewrite (count_event_zero is_pmc_read (violation_log _)
             (violation_log_forall is_pmc_read false _ ltac:(reflexivity))).
  rewrite (count_event_zero is_printk (map E_pmc_read _)
             (reads_forall is_printk false _ ltac:(reflexivity))).
  pose proof (registers_inspected_bounds m) as Hbounds.
  split; [lia|]. split.
  - destruct (first_violation m) as [[| | |]|]; reflexivity.
  - intros m2 Hregs Hmask.
    rewrite (delivers_run _ _ _ _ (at91_pm_verify_clocks_delivers m2)).
    cbn [returned]. do 2 f_equal.
    unfold first_violation, usb_clocks_off, pck_ok, pck_enabled, pck_source,
      usb_pll_off, pllb_unlocked, pmc_reg. cbn [find].
    now rewrite Hregs, Hmask.
Qed.

(** ** SRAM relocation and registration, continued *)

(** X10: the loop that looks for the SRAM device yields the platform
    device of the first "mmio-sram" node that has one, and null exactly
    when no such node has a device; other nodes are passed over. *)
Theorem find_sram_pdev_first (dt : list device_node) :
  (find_sram_pdev dt None = None <->
   forall node, In node dt -> is_sram_node node = true ->
                of_find_device_by_node node = None) /\
  (forall pdev,
      find_sram_pdev dt None = Some pdev ->
      exists before node after,
        dt = before ++ node :: after /\
        is_sram_node node = true /\
        of_find_device_by_node node = Some pdev /\
        forall n, In n before -> is_sram_node n = true ->
                  of_find_device_by_node n = None).
Proof.
  induction dt as [|node rest [IHnone IHsome]]; cbn [find_sram_pdev].
  - split; [split; [intros _ node []|reflexivity]|discriminate].
  - fold (is_sram_node node).
    destruct (is_sram_node node) eqn:Hsram;
      [destruct (of_find_device_by_node node) as [p|] eqn:Hdev|].
    + split.
      * split; [discriminate|]. intros Hall.
        rewrite <- Hdev. apply Hall; [now left|exact Hsram].
      * intros pdev Hp. injection Hp as <-.
        exists [], node, rest. repeat split; try assumption.
        intros n [].
    + split.
      * rewrite IHnone. split.
        -- intros Hall n [<-|Hin] Hn; [exact Hdev|now apply Hall].
        -- intros Hall n Hin. apply Hall. now right.
      * intros pdev Hp. destruct (IHsome pdev Hp)
          as (before & n & after & -> & Hn & Hd & Hbefore).
        exists (node :: before), n, after. repeat split; try assumption.
        intros n' [<-|Hin] Hn'; [exact Hdev|now apply Hbefore].
    + split.
      * rewrite IHnone. split.
        -- intros Hall n [<-|Hin] Hn; [congruence|now apply Hall].
        -- intros Hall n Hin. apply Hall. now right.
      * intros pdev Hp. destruct (IHsome pdev Hp)
          as (before & n & after & -> & Hn & Hd & Hbefore).
        exists (node :: before), n, after. repeat split; try assumption.
        intros n' [<-|Hin] Hn'; [congruence|now apply Hbefore].
Qed.

Lemma sram_failure_dec (m : machine) :
  sram_failure m \/
  exists pdev pool,
    find_sram_pdev (device_tree (hw m)) None = Some pdev /\
    dev_get_gen_pool pdev = Some pool /\
    gen_pool_alloc pool at91_pm_suspend_in_sram_sz <> 0 /\
    arm_ioremap_exec (hw m)
      (gen_pool_virt_to_phys pool
         (gen_pool_alloc pool at91_pm_suspend_in_sram_sz))
      at91_pm_suspend_in_sram_sz <> 0.
Proof.
  destruct (find_sram_pdev (device_tree (hw m)) None) as [pdev|] eqn:Hdev;
    [|left; now apply no_sram_device].
  destruct (dev_get_gen_pool pdev) as [pool|] eqn:Hpool;
    [|left; now apply (no_sram_pool m pdev)].
  destruct (Z.eq_dec (gen_pool_alloc pool at91_pm_suspend_in_sram_sz) 0)
    as [Halloc|Halloc]; [left; now apply (alloc_fails m pdev pool)|].
  destruct (Z.eq_dec
              (arm_ioremap_exec (hw m)
                 (gen_pool_virt_to_phys pool
                    (gen_pool_alloc pool at91_pm_suspend_in_sram_sz))
                 at91_pm_suspend_in_sram_sz) 0) as [Hmap|Hmap];
    [left; now apply (mapping_fails m pdev pool)|].
  right. now exists pdev, pool.
Qed.

Lemma at91_pm_sram_init_success (m : machine) (pdev : platform_device)
  (pool : gen_pool) :
  find_sram_pdev (device_tree (hw m)) None = Some pdev ->
  dev_get_gen_pool pdev = Some pool ->
  gen_pool_alloc pool at91_pm_suspend_in_sram_sz <> 0 ->
  arm_ioremap_exec (hw m)
    (gen_pool_virt_to_phys pool
       (gen_pool_alloc pool at91_pm_suspend_in_sram_sz))
    at91_pm_suspend_in_sram_sz <> 0 ->
  at91_pm_sram_init m = Done tt (set_suspend_sram_fn (relocated_fn m pool) m).
Proof.
  intros Hdev Hpool Halloc Hmap. apply Z.eqb_neq in Halloc, Hmap.
  unfold at91_pm_sram_init, bind, get, modify. rewrite Hdev, Hpool, Halloc.
  cbn [hw set_suspend_sram_fn at91_suspend_sram_fn]. rewrite Hmap.
  reflexivity.
Qed.

(** X11: the outcomes of the SRAM relocation.  When no step fails it is
    silent and leaves the pointer that [fncpy] gives for the mapped
    block.  A missing device, a missing pool or a failed allocation
    leaves the state as it was but for one warning, so a pointer that was
    already set survives; a failed mapping overwrites the pointer with
    null.  One of the five cases always applies. *)
Theorem at91_pm_sram_init_outcomes (m : machine) :
  (forall pdev pool,
      find_sram_pdev (device_tree (hw m)) None = Some pdev ->
      dev_get_gen_pool pdev = Some pool ->
      gen_pool_alloc pool at91_pm_suspend_in_sram_sz <> 0 ->
      arm_ioremap_exec (hw m)
        (gen_pool_virt_to_phys pool
           (gen_pool_alloc pool at91_pm_suspend_in_sram_sz))
        at91_pm_suspend_in_sram_sz <> 0 ->
      at91_pm_sram_init m =
        Done tt (set_suspend_sram_fn (relocated_fn m pool) m)) /\
  (find_sram_pdev (device_tree (hw m)) None = None ->
   at91_pm_sram_init m =
     Done tt (append_events
                [E_printk KERN_WARNING "%s: failed to find sram device!"
                   [ArgStr "at91_pm_sram_init"]] m)) /\
  (forall pdev,
      find_sram_pdev (device_tree (hw m)) None = Some pdev ->
      dev_get_gen_pool pdev = None ->
      at91_pm_sram_init m =
        Done tt (append_events
                   [E_printk KERN_WARNING "%s: sram pool unavailable!"
                      [ArgStr "at91_pm_sram_init"]] m)) /\
  (forall pdev pool,
      find_sram_pdev (device_tree (hw m)) None = Some pdev ->
      dev_get_gen_pool pdev = Some pool ->
      gen_pool_alloc pool at91_pm_suspend_in_sram_sz = 0 ->
      at91_pm_sram_init m =
        Done tt (append_events
                   [E_printk KERN_WARNING "%s: unable to alloc ocram!"
                      [ArgStr "at91_pm_sram_init"]] m)) /\
  (forall pdev pool,
      find_sram_pdev (device_tree (hw m)) None = Some pdev ->
      dev_get_gen_pool pdev = Some pool ->
      gen_pool_alloc pool at91_pm_suspend_in_sram_sz <> 0 ->
      arm_ioremap_exec (hw m)
        (gen_pool_virt_to_phys pool
           (gen_pool_alloc pool at91_pm_suspend_in_sram_sz))
        at91_pm_suspend_in_sram_sz = 0 ->
      at91_pm_sram_init m =
        Done tt (append_events
                   [E_printk KERN_WARNING "SRAM: Could not map" []]
                   (set_suspend_sram_fn 0 m))) /\
  (sram_failure m \/
   exists pdev pool,
     find_sram_pdev (device_tree (hw m)) None = Some pdev /\
     dev_get_gen_pool pdev = Some pool /\
     gen_pool_alloc pool at91_pm_suspend_in_sram_sz <> 0 /\
     arm_ioremap_exec (hw m)
       (gen_pool_virt_to_phys pool
          (gen_pool_alloc pool at91_pm_suspend_in_sram_sz))
       at91_pm_suspend_in_sram_sz <> 0).
Proof.
  split; [exact (at91_pm_sram_init_success m)|].
  unfold at91_pm_sram_init, bind, get, modify, pr_warn, emit, modify.
  split; [|split; [|split; [|split]]].
  - intros Hdev. rewrite Hdev. now rewrite log_event_append.
  - intros pdev Hdev Hpool. rewrite Hdev, Hpool. now rewrite log_event_append.
  - intros pdev pool Hdev Hpool Halloc. rewrite Hdev, Hpool, Halloc.
    cbn [Z.eqb]. now rewrite log_event_append.
  - intros pdev pool Hdev Hpool Halloc Hmap. apply Z.eqb_neq in Halloc.
    rewrite Hdev, Hpool, Halloc.
    cbn [hw set_suspend_sram_fn at91_suspend_sram_fn]. rewrite Hmap.
    cbn [Z.eqb]. now rewrite log_event_append.
  - apply sram_failure_dec.
Qed.

Lemma at91_pm_sram_init_shape (m : machine) :
  exists f evs,
    at91_pm_sram_init m = Done tt (append_events evs (set_suspend_sram_fn f m)) /\
    Forall (fun e => is_printk e = true) evs.
Proof.
  destruct (sram_failure_dec m) as [Hfail|(pdev & pool & Hd & Hp & Ha & Hm)].
  - destruct (at91_pm_sram_init_failure_run m Hfail)
      as (f & fmt & args & _ & Hrun).
    exists f. eexists. split; [exact Hrun|]. repeat constructor.
  - exists (relocated_fn m pool), [].
    rewrite (at91_pm_sram_init_success m pdev pool Hd Hp Ha Hm).
    split; [|constructor].
    unfold append_events, set_suspend_sram_fn. cbn. now rewrite app_nil_r.
Qed.

(** X12: what [at91_pm_init] does after the relocation, in this order:
    it registers the cpuidle device, with the standby routine as its
    platform data, exactly when such a routine was set, whatever became
    of the SRAM; then it registers the suspend operations when the
    routine pointer is non-null, and otherwise logs that PM is not
    supported.  It touches neither the pointer nor the platform data. *)
Theorem at91_pm_init_registrations (m : machine) :
  exists m1 m2,
    at91_pm_sram_init m = Done tt m1 /\
    at91_pm_init m = Done tt m2 /\
    events_since m m2 =
      events_since m m1 ++
      (if cpuidle_platform_data m =? 0 then []
       else [E_platform_device_register (cpuidle_platform_data m)]) ++
      [if at91_suspend_sram_fn m1 =? 0
       then E_printk KERN_INFO
              "AT91: PM not supported, due to no SRAM allocated" []
       else E_suspend_set_ops] /\
    at91_suspend_sram_fn m2 = at91_suspend_sram_fn m1 /\
    cpuidle_platform_data m2 = cpuidle_platform_data m.
Proof.
  destruct (at91_pm_sram_init_shape m) as (f & evs & Hrun & _).
  do 2 eexists. split; [exact Hrun|].
  split; [exact (at91_pm_init_after m _ Hrun)|].
  cbn [at91_suspend_sram_fn cpuidle_platform_data append_events
       set_suspend_sram_fn].
  split; [|split; reflexivity].
  rewrite append_events_app.
  change (events_since m (append_events ?l (set_suspend_sram_fn f m)))
    with (events_since m (append_events l m)).
  rewrite !events_since_append.
  destruct (cpuidle_platform_data m =? 0), (f =? 0); reflexivity.
Qed.

Lemma at91_pm_init_set_ops_count (m : machine) (f : Z) (evs : list event) :
  at91_pm_sram_init m = Done tt (append_events evs (set_suspend_sram_fn f m)) ->
  Forall (fun e => is_printk e = true) evs ->
  exists m2,
    at91_pm_init m = Done tt m2 /\
    count_event is_suspend_set_ops (events_since m m2) =
      (if (f =? 0)%Z then 0 else 1)%nat.
Proof.
  intros Hrun Hevs. eexists.
  split; [exact (at91_pm_init_after m _ Hrun)|].
  rewrite append_events_app.
  change (events_since m (append_events ?l (set_suspend_sram_fn f m)))
    with (events_since m (append_events l m)).
  rewrite events_since_append, !count_event_app.
  rewrite (count_event_zero is_suspend_set_ops evs).
  2:{ eapply Forall_impl; [|exact Hevs]. now intros []. }
  cbn [at91_suspend_sram_fn cpuidle_platform_data append_events
       set_suspend_sram_fn].
  destruct (negb (cpuidle_platform_data m =? 0)), (f =? 0); reflexivity.
Qed.

(** X13: from a null routine pointer, [at91_pm_init] registers the
    suspend operations exactly when every step of the relocation
    succeeds and [fncpy] yields a non-null pointer; it registers them at
    most once. *)
Theorem at91_pm_init_suspend_ops (m : machine) :
  at91_suspend_sram_fn m = 0 ->
  exists m2,
    at91_pm_init m = Done tt m2 /\
    (count_event is_suspend_set_ops (events_since m m2) <= 1)%nat /\
    (count_event is_suspend_set_ops (events_since m m2) = 1%nat <->
     exists pdev pool,
       find_sram_pdev (device_tree (hw m)) None = Some pdev /\
       dev_get_gen_pool pdev = Some pool /\
       gen_pool_alloc pool at91_pm_suspend_in_sram_sz <> 0 /\
       arm_ioremap_exec (hw m)
         (gen_pool_virt_to_phys pool
            (gen_pool_alloc pool at91_pm_suspend_in_sram_sz))
         at91_pm_suspend_in_sram_sz <> 0 /\
       relocated_fn m pool <> 0).
Proof.
  intros Hnull.
  destruct (sram_failure_dec m) as [Hfail|(pdev & pool & Hd & Hp & Ha & Hm)].
  - destruct (at91_pm_sram_init_failure_run m Hfail)
      as (f & fmt & args & Hf & Hrun).
    assert (Hf0 : f = 0) by (destruct Hf; congruence). subst f.
    destruct (at91_pm_init_set_ops_count m 0 _ Hrun ltac:(repeat constructor))
      as (m2 & Hinit & Hcount).
    exists m2. split; [exact Hinit|]. rewrite Hcount. cbn [Z.eqb].
    split; [lia|]. split; [discriminate|].
    intros (pdev & pool & Hd & Hp & Ha & Hm & _). exfalso.
    destruct Hfail as [Hdev|pdev' Hdev Hpool|pdev' pool' Hdev Hpool Halloc
                      |pdev' pool' Hdev Hpool Halloc Hmap]; congruence.
  - pose proof (at91_pm_sram_init_success m pdev pool Hd Hp Ha Hm) as Hrun.
    rewrite <- (append_events_nil (set_suspend_sram_fn _ m)) in Hrun.
    destruct (at91_pm_init_set_ops_count m _ _ Hrun ltac:(constructor))
      as (m2 & Hinit & Hcount).
    exists m2. split; [exact Hinit|]. rewrite Hcount.
    destruct (Z.eqb_spec (relocated_fn m pool) 0) as [Hz|Hz].
    + split; [lia|]. split; [discriminate|].
      intros (pdev' & pool' & Hd' & Hp' & _ & _ & Hnz). congruence.
    + split; [lia|]. split; [|reflexivity].
      intros _. now exists pdev, pool.
Qed.

(** ** Memory-controller discovery, continued *)

Lemma dt_ramc_loop_standby (nodes : list (device_node * of_device_id)) :
  forall (idx standby : Z) (m : machine) (r : Z * Z) (m1 : machine),
    dt_ramc_loop nodes idx standby m = Done r m1 ->
    snd r = if standby =? 0 then first_standby nodes else standby.
Proof.
  induction nodes as [|[np id] rest IH]; intros idx standby m r m1 Hrun.
  - cbn in Hrun. injection Hrun as <- _. cbn.
    destruct (Z.eqb_spec standby 0); congruence.
  - rewrite dt_ramc_loop_step in Hrun.
    destruct ((0 <=? idx) && (idx <? 2)); [|discriminate Hrun].
    cbv zeta in Hrun. destruct (of_iomap0 np =? 0); [discriminate Hrun|].
    apply IH in Hrun. rewrite Hrun. cbn [first_standby snd].
    destruct (Z.eqb_spec standby 0) as [Hz|Hz]; [|apply Z.eqb_neq in Hz; now rewrite Hz].
    destruct (id_data id =? 0); reflexivity.
Qed.

Lemma dt_ramc_loop_room (nodes : list (device_node * of_device_id)) :
  forall (idx standby : Z) (m : machine) (r : Z * Z) (m1 : machine),
    dt_ramc_loop nodes idx standby m = Done r m1 -> 0 <= idx ->
    nodes = [] \/ idx + Z.of_nat (List.length nodes) <= 2.
Proof.
  induction nodes as [|[np id] rest IH]; intros idx standby m r m1 Hrun Hlo;
    [now left|right].
  rewrite dt_ramc_loop_step in Hrun.
  destruct (Z.leb_spec 0 idx) as [_|Hneg]; [|lia].
  destruct (Z.ltb_spec idx 2) as [Hhi|Hhi]; [|discriminate Hrun].
  cbn [andb] in Hrun. cbv zeta in Hrun.
  destruct (of_iomap0 np =? 0); [discriminate Hrun|].
  apply IH in Hrun; [|lia]. cbn [List.length].
  destruct Hrun as [-> | Hroom]; cbn [List.length]; lia.
Qed.

(** X14: with at most two matching nodes, so that every store is inside
    the array, the discovery returns exactly when at least one node
    matches and every matching node maps; otherwise it stops with one of
    its two panics. *)
Theorem at91_dt_ramc_returns_iff (m : machine) :
  (List.length (ramc_nodes m) <= 2)%nat ->
  (returned (at91_dt_ramc m) = Some tt <->
   ramc_nodes m <> [] /\ Forall maps_ok (ramc_nodes m)) /\
  (returned (at91_dt_ramc m) = None ->
   stopped (at91_dt_ramc m) = Some no_node_panic \/
   exists idx, stopped (at91_dt_ramc m) = Some (map_panic idx)).
Proof.
  intros Hlen. rewrite at91_dt_ramc_unfold.
  destruct (dt_ramc_loop (ramc_nodes m) 0 0 m) as [[idx standby] m1|h m1]
    eqn:Hrun.
  - pose proof (dt_ramc_loop_done _ _ _ _ _ _ Hrun) as (Hidx & _ & Hmaps & _).
    cbn [fst] in Hidx.
    destruct (Z.eqb_spec idx 0) as [Hz|Hz].
    + cbn [returned stopped]. split; [|intros _; now left].
      split; [discriminate|]. intros [Hne _].
      destruct (ramc_nodes m); [contradiction|].
      cbn [List.length] in Hidx. lia.
    + assert (Hne : ramc_nodes m <> []).
      { intros Hnil. rewrite Hnil in Hidx. cbn in Hidx. lia. }
      destruct (standby =? 0) eqn:Hs.
      * cbn [returned]. split; [tauto|discriminate].
      * unfold at91_pm_set_standby. rewrite Hs. cbn [negb returned modify].
        split; [tauto|discriminate].
  - cbn [returned stopped].
    assert (Hbad : ~ Forall maps_ok (ramc_nodes m)).
    { intros Hmaps.
      destruct (dt_ramc_loop_completes (ramc_nodes m) 0 0 m Hmaps)
        as (r & m2 & Hrun'); [lia|lia|congruence]. }
    split; [split; [discriminate|tauto]|].
    intros _. right.
    destruct (dt_ramc_loop_halted _ _ _ _ _ _ Hrun) as [i [Hh|Hh]].
    + exists i. now rewrite Hh.
    + exfalso. rewrite Hh in Hrun.
      apply dt_ramc_loop_out_of_bounds in Hrun; lia.
Qed.

(** X15: when the discovery returns, the standby routine it hands to the
    cpuidle device is the one of the first matching node whose table
    entry declares one, and nothing is logged; when no entry declares one
    the platform data keep their value and the warning is logged. *)
Theorem at91_dt_ramc_first_standby (m : machine) :
  ramc_nodes m <> [] ->
  (List.length (ramc_nodes m) <= 2)%nat ->
  Forall maps_ok (ramc_nodes m) ->
  exists m',
    at91_dt_ramc m = Done tt m' /\
    cpuidle_platform_data m' =
      (if first_standby (ramc_nodes m) =? 0 then cpuidle_platform_data m
       else first_standby (ramc_nodes m)) /\
    events_since m m' =
      (if first_standby (ramc_nodes m) =? 0
       then [E_printk KERN_WARNING "ramc no standby function available" []]
       else []).
Proof.
  intros Hne Hlen Hmaps. rewrite at91_dt_ramc_unfold.
  destruct (dt_ramc_loop_completes (ramc_nodes m) 0 0 m Hmaps)
    as ([idx standby] & m1 & Hrun); [lia|lia|].
  rewrite Hrun.
  pose proof (dt_ramc_loop_done _ _ _ _ _ _ Hrun)
    as (Hidx & _ & _ & bases & ->).
  pose proof (dt_ramc_loop_standby _ _ _ _ _ _ Hrun) as Hstandby.
  cbn [fst snd Z.eqb] in Hidx, Hstandby. subst standby.
  assert (Hpos : idx <> 0).
  { destruct (ramc_nodes m); [contradiction|]. cbn [List.length] in Hidx. lia. }
  apply Z.eqb_neq in Hpos. rewrite Hpos.
  destruct (first_standby (ramc_nodes m) =? 0) eqn:Hs.
  - eexists. split; [reflexivity|]. split; [reflexivity|].
    exact (events_since_append _ m).
  - unfold at91_pm_set_standby. rewrite Hs. cbn [negb].
    eexists. split; [reflexivity|]. split; [reflexivity|].
    unfold events_since. cbn. now rewrite skipn_all.
Qed.

(** X16: the panic for a missing memory controller is raised exactly
    when no node of the description data matches. *)
Theorem at91_dt_ramc_no_node_iff (m : machine) :
  stopped (at91_dt_ramc m) = Some no_node_panic <-> ramc_nodes m = [].
Proof.
  rewrite at91_dt_ramc_unfold. split.
  - intros Hstop.
    destruct (dt_ramc_loop (ramc_nodes m) 0 0 m) as [[idx standby] m1|h m1]
      eqn:Hrun.
    + pose proof (dt_ramc_loop_done _ _ _ _ _ _ Hrun) as (Hidx & _).
      cbn [fst] in Hidx.
      destruct (Z.eqb_spec idx 0) as [Hz|Hz].
      * destruct (ramc_nodes m); [reflexivity|].
        cbn [List.length] in Hidx. lia.
      * destruct (standby =? 0) eqn:Hs; [discriminate Hstop|].
        unfold at91_pm_set_standby in Hstop. rewrite Hs in Hstop.
        discriminate Hstop.
    + cbn [stopped] in Hstop. injection Hstop as ->.
      destruct (dt_ramc_loop_halted _ _ _ _ _ _ Hrun) as [i [Hh|Hh]];
        discriminate Hh.
  - intros ->. reflexivity.
Qed.

Lemma dt_ramc_loop_three (n1 n2 : device_node) (i1 i2 : of_device_id)
  (n3 : device_node * of_device_id)
  (rest : list (device_node * of_device_id)) (m : machine) :
  stopped (dt_ramc_loop ((n1, i1) :: (n2, i2) :: n3 :: rest) 0 0 m) =
    Some (if of_iomap0 n1 =? 0 then map_panic 0
          else if of_iomap0 n2 =? 0 then map_panic 1
          else OutOfBounds 2).
Proof.
  destruct n3 as [n3 i3].
  rewrite dt_ramc_loop_step. cbn [Z.leb Z.ltb Z.compare andb Z.eqb].
  cbv zeta. destruct (of_iomap0 n1 =? 0); [reflexivity|].
  rewrite dt_ramc_loop_step.
  cbn [Z.leb Z.ltb Z.compare andb Z.eqb Z.add Pos.compare Pos.compare_cont].
  cbv zeta. destruct (of_iomap0 n2 =? 0); [reflexivity|].
  rewrite dt_ramc_loop_step. reflexivity.
Qed.

Lemma at91_dt_ramc_stopped_in_loop (m : machine) (i : Z) :
  stopped (at91_dt_ramc m) = Some (OutOfBounds i) <->
  stopped (dt_ramc_loop (ramc_nodes m) 0 0 m) = Some (OutOfBounds i).
Proof.
  rewrite at91_dt_ramc_unfold.
  destruct (dt_ramc_loop (ramc_nodes m) 0 0 m) as [[idx standby] m1|h m1];
    [|reflexivity].
  cbn [stopped]. split; [|discriminate].
  destruct (idx =? 0); [discriminate|].
  destruct (standby =? 0) eqn:Hs; [discriminate|].
  unfold at91_pm_set_standby. rewrite Hs. discriminate.
Qed.

(** X17: the discovery stores past the end of the two-entry array
    exactly when more than two nodes match and the first two map; the
    index is then 2. *)
Theorem at91_dt_ramc_overflow_iff (m : machine) (i : Z) :
  stopped (at91_dt_ramc m) = Some (OutOfBounds i) <->
  i = 2 /\
  (2 < List.length (ramc_nodes m))%nat /\
  Forall maps_ok (firstn 2 (ramc_nodes m)).
Proof.
  rewrite at91_dt_ramc_stopped_in_loop. split.
  - intros Hstop.
    assert (Hlen : (2 < List.length (ramc_nodes m))%nat).
    { destruct (dt_ramc_loop (ramc_nodes m) 0 0 m) as [r m1|h m1] eqn:Hrun;
        [discriminate Hstop|].
      cbn [stopped] in Hstop. injection Hstop as ->.
      apply dt_ramc_loop_out_of_bounds in Hrun; lia. }
    destruct (ramc_nodes m) as [|[n1 i1] [|[n2 i2] [|n3 rest]]];
      try (cbn in Hlen; lia).
    rewrite dt_ramc_loop_three in Hstop. cbn [firstn].
    destruct (Z.eqb_spec (of_iomap0 n1) 0) as [Hm1|Hm1]; [discriminate Hstop|].
    destruct (Z.eqb_spec (of_iomap0 n2) 0) as [Hm2|Hm2]; [discriminate Hstop|].
    injection Hstop as <-. split; [reflexivity|]. split; [exact Hlen|].
    repeat constructor; assumption.
  - intros (-> & Hlen & Hmaps).
    destruct (ramc_nodes m) as [|[n1 i1] [|[n2 i2] [|n3 rest]]];
      try (cbn in Hlen; lia).
    rewrite dt_ramc_loop_three. cbn [firstn] in Hmaps.
    inversion Hmaps as [|x l Hm1 Hrest]; subst.
    inversion Hrest as [|y l' Hm2 _]; subst.
    unfold maps_ok in Hm1, Hm2. cbn [fst] in Hm1, Hm2.
    apply Z.eqb_neq in Hm1, Hm2. now rewrite Hm1, Hm2.
Qed.

(** ** The per-variant initializers *)

Lemma dt_ramc_loop_halted_frame (nodes : list (device_node * of_device_id)) :
  forall (idx standby : Z) (m : machine) (h : halt) (m1 : machine),
    dt_ramc_loop nodes idx standby m = Halted h m1 ->
    exists bases, m1 = set_ramc_base bases m.
Proof.
  induction nodes as [|[np id] rest IH]; intros idx standby m h m1 Hrun.
  - discriminate Hrun.
  - rewrite dt_ramc_loop_step in Hrun.
    destruct ((0 <=? idx) && (idx <? 2)).
    + cbv zeta in Hrun. destruct (of_iomap0 np =? 0).
      * injection Hrun as _ <-. eexists. reflexivity.
      * apply IH in Hrun. destruct Hrun as [bases ->]. now exists bases.
    + injection Hrun as _ <-. exists (at91_ramc_base m).
      now rewrite set_ramc_base_same.
Qed.

Lemma at91_dt_ramc_done_frame (m m1 : machine) :
  at91_dt_ramc m = Done tt m1 ->
  hw m1 = hw m /\
  at91_pm_data m1 = at91_pm_data m /\
  at91_suspend_sram_fn m1 = at91_suspend_sram_fn m /\
  target_state m1 = target_state m /\
  exists evs, trace m1 = trace m ++ evs /\
              Forall (fun e => is_printk e = true) evs.
Proof.
  rewrite at91_dt_ramc_unfold.
  destruct (dt_ramc_loop (ramc_nodes m) 0 0 m) as [[idx standby] m0|h m0]
    eqn:Hrun; [|discriminate].
  pose proof (dt_ramc_loop_done _ _ _ _ _ _ Hrun) as (_ & _ & _ & bases & ->).
  destruct (idx =? 0); [discriminate|].
  destruct (standby =? 0) eqn:Hs.
  - intros Hdone. injection Hdone as <-. repeat split.
    eexists. split; [reflexivity|]. repeat constructor.
  - unfold at91_pm_set_standby. rewrite Hs. cbn [negb]. unfold modify.
    intros Hdone. injection Hdone as <-. repeat split.
    exists []. split; [cbn; now rewrite app_nil_r|constructor].
Qed.

Lemma at91_pm_init_shape (m : machine) :
  exists f evs,
    at91_pm_init m = Done tt (append_events evs (set_suspend_sram_fn f m)) /\
    Forall (fun e => is_ramc_write e = false) evs.
Proof.
  destruct (at91_pm_sram_init_shape m) as (f & evs & Hrun & Hevs).
  exists f. eexists. rewrite (at91_pm_init_after m _ Hrun).
  rewrite append_events_app. split; [reflexivity|].
  apply Forall_app. split.
  - eapply Forall_impl; [|exact Hevs]. now intros [].
  - apply Forall_app. split.
    + destruct (negb _); repeat constructor.
    + destruct (negb _); repeat constructor.
Qed.

(** One initializer, after a discovery that returns. *)
Lemma soc_pm_init_run (v : soc) (m m1 : machine) :
  at91_dt_ramc m = Done tt m1 ->
  exists f evs,
    soc_pm_init v m =
      Done tt (append_events (soc_ramc_writes v ++ evs)
                 (set_suspend_sram_fn f
                    (set_pm_data (soc_profile v (at91_pm_data m1)) m1))) /\
    Forall (fun e => is_ramc_write e = false) evs.
Proof.
  intros Hdt.
  destruct v; cbn [soc_pm_init soc_ramc_writes soc_profile];
    unfold at91rm9200_pm_init, at91sam9260_pm_init, at91sam9g45_pm_init,
      at91sam9x5_pm_init, sam5d3_pm_init, sam5d4_pm_init;
    unfold bind at 1; rewrite Hdt;
    unfold update_pm_data, bind, emit, modify; cbv beta iota;
    match goal with
    | |- context [at91_pm_init ?M] =>
        destruct (at91_pm_init_shape M) as (f & evs & Hrun & Hall);
        rewrite Hrun
    end;
    exists f, evs; (split; [|exact Hall]);
    unfold append_events, set_suspend_sram_fn, set_pm_data, log_event,
      set_uhp_udp_mask, set_memctrl, set_ddrc_pid, set_is_sama5d4;
    cbn; rewrite <- ?app_assoc; reflexivity.
Qed.

(** X18: every initializer runs the discovery first: when the discovery
    stops the system the initializer stops there too, with the profile
    and the routine pointer as they were and nothing logged or
    registered. *)
Theorem soc_pm_init_discovery_first (v : soc) (m : machine) (h : halt)
  (m1 : machine) :
  at91_dt_ramc m = Halted h m1 ->
  soc_pm_init v m = Halted h m1 /\
  at91_pm_data m1 = at91_pm_data m /\
  at91_suspend_sram_fn m1 = at91_suspend_sram_fn m /\
  cpuidle_platform_data m1 = cpuidle_platform_data m /\
  trace m1 = trace m.
Proof.
  intros Hdt. split.
  - destruct v; cbn [soc_pm_init];
      unfold at91rm9200_pm_init, at91sam9260_pm_init, at91sam9g45_pm_init,
        at91sam9x5_pm_init, sam5d3_pm_init, sam5d4_pm_init;
      unfold bind at 1; now rewrite Hdt.
  - rewrite at91_dt_ramc_unfold in Hdt.
    destruct (dt_ramc_loop (ramc_nodes m) 0 0 m) as [[idx standby] m0|h0 m0]
      eqn:Hrun.
    + pose proof (dt_ramc_loop_done _ _ _ _ _ _ Hrun)
        as (_ & _ & _ & bases & ->).
      destruct (idx =? 0); [injection Hdt as _ <-; now repeat split|].
      destruct (standby =? 0) eqn:Hs; [discriminate Hdt|].
      unfold at91_pm_set_standby in Hdt. rewrite Hs in Hdt. discriminate Hdt.
    + injection Hdt as _ <-.
      destruct (dt_ramc_loop_halted_frame _ _ _ _ _ _ Hrun) as [bases ->].
      now repeat split.
Qed.

(** X19: after a discovery that returns, each initializer returns and
    leaves the profile of its family: the USB clock mask and the
    memory-controller kind always, the device id for the SAMA5D3 and the
    SAMA5D4, the variant flag for the SAMA5D4; the fields it does not
    assign keep their value.  The base addresses and the platform data
    are those the discovery left. *)
Theorem soc_pm_init_profile (v : soc) (m m1 : machine) :
  at91_dt_ramc m = Done tt m1 ->
  exists m2,
    soc_pm_init v m = Done tt m2 /\
    at91_pm_data m2 = soc_profile v (at91_pm_data m) /\
    at91_ramc_base m2 = at91_ramc_base m1 /\
    cpuidle_platform_data m2 = cpuidle_platform_data m1.
Proof.
  intros Hdt. destruct (soc_pm_init_run v m m1 Hdt) as (f & evs & Hrun & _).
  destruct (at91_dt_ramc_done_frame m m1 Hdt) as (_ & Hdata & _).
  eexists. split; [exact Hrun|].
  cbn [at91_pm_data at91_ramc_base cpuidle_platform_data append_events
       set_suspend_sram_fn set_pm_data].
  rewrite Hdata. now repeat split.
Qed.

(** X20: only the AT91RM9200 initializer writes to the memory
    controller: it clears the low-power register of controller 0, once;
    no other initializer writes any memory-controller register. *)
Theorem soc_pm_init_ramc_writes (v : soc) (m m1 : machine) :
  at91_dt_ramc m = Done tt m1 ->
  exists m2,
    soc_pm_init v m = Done tt m2 /\
    filter is_ramc_write (events_since m m2) =
      match v with
      | AT91RM9200 => [E_ramc_write 0 AT91RM9200_SDRAMC_LPR 0]
      | _ => []
      end.
Proof.
  intros Hdt. destruct (soc_pm_init_run v m m1 Hdt) as (f & evs & Hrun & Hevs).
  destruct (at91_dt_ramc_done_frame m m1 Hdt)
    as (_ & _ & _ & _ & evs1 & Htrace & Hevs1).
  eexists. split; [exact Hrun|].
  unfold events_since.
  cbn [trace append_events set_suspend_sram_fn set_pm_data].
  rewrite Htrace, <- app_assoc, skipn_app, skipn_all, Nat.sub_diag.
  cbn [skipn app]. rewrite !filter_app.
  rewrite (filter_none is_ramc_write evs1).
  2:{ eapply Forall_impl; [|exact Hevs1]. now intros []. }
  rewrite (filter_none is_ramc_write evs Hevs), app_nil_r.
  destruct v; reflexivity.
Qed.

End Coverage.

(** * The further theorems at concrete inputs *)

(** Deep suspend on the SAMA5D3 with quiet clocks. *)
Lemma at91_pm_enter_suspend_sequence_witness :
  let m := Sample.sama5d3 Sample.quiet_regs in
  (at91_suspend_sram_fn m <> 0 /\
   PM_SUSPEND_STANDBY (Headers := Sample.headers) <>
   PM_SUSPEND_MEM (Headers := Sample.headers)) /\
  exists m',
    at91_pm_enter (hdr := Sample.headers) 3 m = Done 0 m' /\
    (reaches_suspend (hdr := Sample.headers) m 3 ->
     filter is_suspend_event (events_since m m') =
       [ E_flush_cache_all; E_outer_disable;
         E_suspend_sram_fn (at91_suspend_sram_fn m) (at91_pmc_base (hw m))
           (nth 0 (at91_ramc_base m) 0) (nth 1 (at91_ramc_base m) 0)
           (pm_mode_word (hdr := Sample.headers) (at91_pm_data m) 3);
         E_outer_resume ]) /\
    (~ reaches_suspend (hdr := Sample.headers) m 3 ->
     filter is_suspend_event (events_since m m') = []).
Proof.
  cbv zeta. split; [split; vm_compute; discriminate|].
  apply (@at91_pm_enter_suspend_sequence Sample.headers 3
           (Sample.sama5d3 Sample.quiet_regs)); vm_compute; discriminate.
Defined.

(** Standby on the SAMA5D3 with the USB clock on: the validator is not
    asked. *)
Lemma at91_pm_enter_validator_use_witness :
  let m := Sample.sama5d3 Sample.usb_regs in
  at91_suspend_sram_fn m <> 0 /\
  exists m',
    at91_pm_enter (hdr := Sample.headers) 2 m = Done 0 m' /\
    filter is_clock_event (events_since m m') = [].
Proof.
  cbv zeta. split; [vm_compute; discriminate|].
  apply (@at91_pm_enter_validator_use Sample.headers 2
           (Sample.sama5d3 Sample.usb_regs)).
  vm_compute; discriminate.
Defined.

(** PM_SUSPEND_ON (0) on a board without SRAM, where the routine pointer
    is null. *)
Lemma at91_pm_enter_shallow_witness :
  let m := Sample.boot (Sample.board_of Sample.quiet_regs
                          [Sample.ddramc_node 0xffffea00]) in
  (0 <> PM_SUSPEND_MEM (Headers := Sample.headers) /\
   0 <> PM_SUSPEND_STANDBY (Headers := Sample.headers)) /\
  at91_pm_enter (hdr := Sample.headers) 0 m =
    Done 0
      (set_target_state 0
         (append_events
            [E_pinctrl_gpio_suspend; E_cpu_do_idle; E_pinctrl_gpio_resume] m)).
Proof.
  cbv zeta. split; [split; vm_compute; discriminate|].
  apply (@at91_pm_enter_shallow Sample.headers 0); vm_compute; discriminate.
Defined.

(** The state 7 is rejected by [at91_pm_valid_state] and logged by
    [at91_pm_enter]. *)
Lemma at91_pm_enter_bogus_iff_invalid_witness :
  let m := Sample.sama5d3 Sample.quiet_regs in
  at91_suspend_sram_fn m <> 0 /\
  exists m',
    at91_pm_enter (hdr := Sample.headers) 7 m = Done 0 m' /\
    filter is_debug_printk (events_since m m') =
      [E_printk KERN_DEBUG "AT91: PM - bogus suspend state %d" [ArgInt 7]].
Proof.
  cbv zeta. split; [vm_compute; discriminate|].
  apply (@at91_pm_enter_bogus_iff_invalid Sample.headers 7
           (Sample.sama5d3 Sample.quiet_regs)).
  vm_compute; discriminate.
Defined.

(** Two transitions on the SAMA5D3, a deep one and a standby one. *)
Lemma pm_calls_keep_statics_witness :
  let m := Sample.sama5d3 Sample.quiet_regs in
  at91_suspend_sram_fn m <> 0 /\
  exists m',
    run_calls (hdr := Sample.headers)
      [CallValid 3; CallBegin 3; CallSlowClock; CallEnter 3; CallEnd;
       CallBegin 2; CallEnter 2; CallEnd] m = Done tt m' /\
    keeps_statics m m'.
Proof.
  cbv zeta. split; [vm_compute; discriminate|].
  apply (@pm_calls_keep_statics Sample.headers).
  vm_compute; discriminate.
Defined.

(** A [begin] for deep suspend that nothing has followed yet. *)
Lemma pm_calls_target_state_witness :
  let m := Sample.sama5d3 Sample.quiet_regs in
  at91_suspend_sram_fn m <> 0 /\
  exists m',
    run_calls (hdr := Sample.headers)
      [CallBegin 2; CallEnter 2; CallEnd; CallBegin 3; CallValid 3] m =
      Done tt m' /\
    target_state m' = 3 /\
    returned (at91_suspend_entering_slow_clock (hdr := Sample.headers) m') =
      Some 1.
Proof.
  cbv zeta. split; [vm_compute; discriminate|].
  apply (@pm_calls_target_state Sample.headers
           [CallBegin 2; CallEnter 2; CallEnd; CallBegin 3; CallValid 3]
           (Sample.sama5d3 Sample.quiet_regs)).
  vm_compute; discriminate.
Defined.

(** Three [enter] calls, one of which the validator aborts. *)
Lemma pm_calls_balanced_witness :
  let m := Sample.sama5d3 Sample.usb_regs in
  at91_suspend_sram_fn m <> 0 /\
  exists m',
    run_calls (hdr := Sample.headers)
      [CallBegin 3; CallEnter 3; CallEnter 2; CallEnd; CallEnter 0] m =
      Done tt m' /\
    count_event is_gpio_suspend (events_since m m') = 3%nat /\
    count_event is_gpio_resume (events_since m m') = 3%nat /\
    count_event is_outer_disable (events_since m m') =
      count_event is_outer_resume (events_since m m').
Proof.
  cbv zeta. split; [vm_compute; discriminate|].
  apply (@pm_calls_balanced Sample.headers
           [CallBegin 3; CallEnter 3; CallEnter 2; CallEnd; CallEnter 0]
           (Sample.sama5d3 Sample.usb_regs)).
  vm_compute; discriminate.
Defined.

(** The SAMA5D3 profile, standby (2) against PM_SUSPEND_ON (0). *)
Lemma pm_mode_word_deep_flag_witness :
  let d := at91_pm_data (Sample.sama5d3 Sample.quiet_regs) in
  (2 <> PM_SUSPEND_MEM (Headers := Sample.headers) /\
   0 <> PM_SUSPEND_MEM (Headers := Sample.headers)) /\
  0 <= pm_mode_word (hdr := Sample.headers) d 2 < 2 ^ 32 /\
  0 <= pm_mode_word (hdr := Sample.headers) d 3 < 2 ^ 32 /\
  pm_mode_word (hdr := Sample.headers) d 2 =
    pm_mode_word (hdr := Sample.headers) d 0 /\
  pm_mode_word (hdr := Sample.headers) d 3 =
    Z.lor (pm_mode_word (hdr := Sample.headers) d 2)
          (deep_flag (hdr := Sample.headers)).
Proof.
  cbv zeta. split; [split; vm_compute; discriminate|].
  apply (@pm_mode_word_deep_flag Sample.headers
           (at91_pm_data (Sample.sama5d3 Sample.quiet_regs)) 2 0);
    vm_compute; discriminate.
Defined.

(** The SAMA5D3 description data at boot: the relocation succeeds and the
    operations are registered. *)
Lemma at91_pm_init_suspend_ops_witness :
  let m := Sample.boot (Sample.board_of Sample.quiet_regs Sample.sama5d3_dt) in
  at91_suspend_sram_fn m = 0 /\
  exists m2,
    at91_pm_init (hdr := Sample.headers) m = Done tt m2 /\
    count_event is_suspend_set_ops (events_since m m2) = 1%nat.
Proof.
  cbv zeta. split; [reflexivity|].
  destruct (@at91_pm_init_suspend_ops Sample.headers
              (Sample.boot (Sample.board_of Sample.quiet_regs
                              Sample.sama5d3_dt)) eq_refl)
    as (m2 & Hinit & _ & Hiff).
  exists m2. split; [exact Hinit|]. apply Hiff.
  exists {| dev_get_gen_pool := Some Sample.sram_pool |}, Sample.sram_pool.
  repeat split; vm_compute; discriminate.
Defined.

(** The SAMA5D3 description data have one memory-controller node, which
    maps: the discovery returns. *)
Lemma at91_dt_ramc_returns_iff_witness :
  let m := Sample.boot (Sample.board_of Sample.quiet_regs Sample.sama5d3_dt) in
  (List.length (ramc_nodes (hdr := Sample.headers) m) <= 2)%nat /\
  returned (at91_dt_ramc (hdr := Sample.headers) m) = Some tt /\
  ramc_nodes (hdr := Sample.headers) m <> [] /\
  Forall maps_ok (ramc_nodes (hdr := Sample.headers) m).
Proof.
  cbv zeta.
  assert (Hlen : (List.length (ramc_nodes (hdr := Sample.headers)
                    (Sample.boot (Sample.board_of Sample.quiet_regs
                                    Sample.sama5d3_dt))) <= 2)%nat)
    by (vm_compute; repeat constructor).
  split; [exact Hlen|].
  destruct (@at91_dt_ramc_returns_iff Sample.headers _ Hlen) as [[Hto _] _].
  split; [reflexivity|]. apply Hto. reflexivity.
Defined.

(** The SAMA5D3 description data: the routine of its one controller is
    handed over, silently. *)
Lemma at91_dt_ramc_first_standby_witness :
  let m := Sample.boot (Sample.board_of Sample.quiet_regs Sample.sama5d3_dt) in
  (ramc_nodes (hdr := Sample.headers) m <> [] /\
   (List.length (ramc_nodes (hdr := Sample.headers) m) <= 2)%nat /\
   Forall maps_ok (ramc_nodes (hdr := Sample.headers) m)) /\
  exists m',
    at91_dt_ramc (hdr := Sample.headers) m = Done tt m' /\
    cpuidle_platform_data m' = 0xc0010080 /\
    events_since m m' = [].
Proof.
  cbv zeta.
  assert (Hne : ramc_nodes (hdr := Sample.headers)
                  (Sample.boot (Sample.board_of Sample.quiet_regs
                                  Sample.sama5d3_dt)) <> [])
    by (vm_compute; discriminate).
  assert (Hlen : (List.length (ramc_nodes (hdr := Sample.headers)
                    (Sample.boot (Sample.board_of Sample.quiet_regs
                                    Sample.sama5d3_dt))) <= 2)%nat)
    by (vm_compute; repeat constructor).
  assert (Hmaps : Forall maps_ok (ramc_nodes (hdr := Sample.headers)
                    (Sample.boot (Sample.board_of Sample.quiet_regs
                                    Sample.sama5d3_dt))))
    by (vm_compute; repeat constructor; discriminate).
  split; [now repeat split|].
  exact (@at91_dt_ramc_first_standby Sample.headers _ Hne Hlen Hmaps).
Defined.

(** A board with no memory-controller node: no initializer gets past the
    discovery. *)
Lemma soc_pm_init_discovery_first_witness :
  let m := Sample.boot (Sample.board_of Sample.quiet_regs
                          [Sample.uart_node; Sample.sram_node]) in
  at91_dt_ramc (hdr := Sample.headers) m = Halted no_node_panic m /\
  soc_pm_init (hdr := Sample.headers) SAMA5D4 m = Halted no_node_panic m /\
  trace m = trace m.
Proof.
  cbv zeta.
  assert (Hdt : at91_dt_ramc (hdr := Sample.headers)
                  (Sample.boot (Sample.board_of Sample.quiet_regs
                                  [Sample.uart_node; Sample.sram_node])) =
                Halted no_node_panic
                  (Sample.boot (Sample.board_of Sample.quiet_regs
                                  [Sample.uart_node; Sample.sram_node])))
    by reflexivity.
  split; [exact Hdt|].
  destruct (@soc_pm_init_discovery_first Sample.headers SAMA5D4 _ _ _ Hdt)
    as (Hinit & _ & _ & _ & Htrace).
  split; [exact Hinit|exact Htrace].
Defined.

(** The SAMA5D4 initializer on the sample description data. *)
Lemma soc_pm_init_profile_witness :
  let m := Sample.boot (Sample.board_of Sample.quiet_regs Sample.sama5d3_dt) in
  returned (at91_dt_ramc (hdr := Sample.headers) m) = Some tt /\
  exists m2,
    soc_pm_init (hdr := Sample.headers) SAMA5D4 m = Done tt m2 /\
    at91_pm_data m2 =
      {| uhp_udp_mask := 0xc0; memctrl := 2; ddrc_pid := 16;
         is_sama5d4 := true |}.
Proof.
  cbv zeta. split; [reflexivity|].
  assert (Hdt : at91_dt_ramc (hdr := Sample.headers)
                  (Sample.boot (Sample.board_of Sample.quiet_regs
                                  Sample.sama5d3_dt)) =
                Done tt
                  (final_state
                     (at91_dt_ramc (hdr := Sample.headers)
                        (Sample.boot (Sample.board_of Sample.quiet_regs
                                        Sample.sama5d3_dt)))))
    by reflexivity.
  destruct (@soc_pm_init_profile Sample.headers SAMA5D4 _ _ Hdt)
    as (m2 & Hinit & Hdata & _).
  exists m2. split; [exact Hinit|exact Hdata].
Defined.

(** The AT91RM9200 initializer clears the low-power register. *)
Lemma soc_pm_init_ramc_writes_witness :
  let m := Sample.boot (Sample.board_of Sample.quiet_regs
                          [{| compatible := ["atmel,at91rm9200-sdramc"%string];
                              of_iomap0 := 0xffffff00;
                              of_find_device_by_node := None |};
                           Sample.sram_node]) in
  returned (at91_dt_ramc (hdr := Sample.headers) m) = Some tt /\
  exists m2,
    soc_pm_init (hdr := Sample.headers) AT91RM9200 m = Done tt m2 /\
    filter is_ramc_write (events_since m m2) = [E_ramc_write 0 0x04 0].
Proof.
  cbv zeta. split; [reflexivity|].
  assert (Hdt : at91_dt_ramc (hdr := Sample.headers)
                  (Sample.boot (Sample.board_of Sample.quiet_regs
                     [{| compatible := ["atmel,at91rm9200-sdramc"%string];
                         of_iomap0 := 0xffffff00;
                         of_find_device_by_node := None |};
                      Sample.sram_node])) =
                Done tt
                  (final_state
                     (at91_dt_ramc (hdr := Sample.headers)
                        (Sample.boot (Sample.board_of Sample.quiet_regs
                           [{| compatible := ["atmel,at91rm9200-sdramc"%string];
                               of_iomap0 := 0xffffff00;
                               of_find_device_by_node := None |};
                            Sample.sram_node])))))
    by reflexivity.
  destruct (@soc_pm_init_ramc_writes Sample.headers AT91RM9200 _ _ Hdt)
    as (m2 & Hinit & Hwrites).
  exists m2. split; [exact Hinit|exact Hwrites].
Defined.
